(** * App Store review scraper: a shallow embedding of [commentsE.py]

    The script resolves an application identifier, walks the pages of the
    customer-review feed, turns every rating-bearing feed entry into a
    review row, removes duplicated rows, coerces the timestamp column and
    writes one spreadsheet.

    Conventions of the embedding:
    - a Python [str] is a [string]; a character is a code point below 256
      (the Latin-1 block of Unicode), so the character classes used by
      [str.strip], [str.isdigit], [int] and the regular expression class
      [\d] are written out for that block;
    - a Python exception is a value of [exn]; a call that may raise returns
      [result A := exn + A];
    - the network, the XML parser, the date parser and the spreadsheet
      writer of the libraries are parameters gathered in [env];
    - console output, HTTP requests, pauses and file writes are recorded,
      in order, in a trace of [event]s. *)

From Stdlib Require Import List String Ascii ZArith NArith Bool Arith Lia.
From Stdlib Require Import DecimalString.
From Stdlib Require DecimalNat DecimalFacts.
Import ListNotations.

Local Open Scope string_scope.
Local Open Scope list_scope.

Set Implicit Arguments.

(* ================================================================== *)
(** ** Exceptions and results *)

Inductive exn : Type :=
| ValueError (msg : string)
| KeyError (key : string)
| TypeError (msg : string)
| SyntaxError (msg : string)
| HTTPError (msg : string)
| XMLSyntaxError (msg : string).

Definition result (A : Type) : Type := (exn + A)%type.

Abbreviation Ok a := (@inr exn _ a) (only parsing).
Abbreviation Raise e := (@inl exn _ e) (only parsing).

Definition rbind {A B : Type} (r : result A) (k : A -> result B) : result B :=
  match r with
  | inl e => inl e
  | inr a => k a
  end.

Definition raises {A : Type} (r : result A) : Prop :=
  exists e, r = inl e.

Declare Scope result_scope.
Delimit Scope result_scope with result.
Notation "x <- r ;; k" := (rbind r (fun x => k))
  (at level 61, r at next level, right associativity) : result_scope.

(* ================================================================== *)
(** ** Python strings *)

Module PyStr.

(** [str.isspace] on one character: U+0009..U+000D, U+001C..U+0020,
    U+0085 and U+00A0 are the white-space characters below 256. *)
Definition isspace (c : ascii) : bool :=
  let n := N_of_ascii c in
  ((9 <=? n) && (n <=? 13) || (28 <=? n) && (n <=? 32)
   || (n =? 133) || (n =? 160))%N.

(** The class [\d] of [re] on a [str] pattern, and the digits [int]
    accepts: Unicode category Nd, which below 256 is '0'..'9'. *)
Definition isdecimal (c : ascii) : bool :=
  let n := N_of_ascii c in ((48 <=? n) && (n <=? 57))%N.

(** [str.isdigit] on one character: the decimal digits and the
    superscript digits U+00B2, U+00B3 and U+00B9. *)
Definition isdigit_char (c : ascii) : bool :=
  let n := N_of_ascii c in
  (isdecimal c || (n =? 178) || (n =? 179) || (n =? 185))%N.

Fixpoint forallb_str (p : ascii -> bool) (s : string) : bool :=
  match s with
  | EmptyString => true
  | String c s' => p c && forallb_str p s'
  end.

(** [s.isdigit()]: every character is a digit and there is at least one. *)
Definition isdigit (s : string) : bool :=
  match s with
  | EmptyString => false
  | String _ _ => forallb_str isdigit_char s
  end.

Fixpoint lstrip (s : string) : string :=
  match s with
  | EmptyString => EmptyString
  | String c s' => if isspace c then lstrip s' else s
  end.

Fixpoint rstrip (s : string) : string :=
  match s with
  | EmptyString => EmptyString
  | String c s' =>
      match rstrip s' with
      | EmptyString => if isspace c then EmptyString else String c EmptyString
      | t => String c t
      end
  end.

(** [s.strip()] *)
Definition strip (s : string) : string := rstrip (lstrip s).

(** Truthiness of a string: [x or y] takes [y] when [x] is empty. *)
Definition str_or (x y : string) : string :=
  match x with
  | EmptyString => y
  | _ => x
  end.

(** [str(n)] for a non-negative integer. *)
Definition str_of_nat (n : nat) : string :=
  NilZero.string_of_uint (Nat.to_uint n).

Definition digit_val (c : ascii) : Z := Z.of_N (N_of_ascii c) - 48.

(** The scan of an integer literal: the run of decimal digits, single
    underscores allowed between two digits.  The value is the number
    read, the count of its digits and the text after the run; [None]
    when an underscore is doubled or ends the run. *)
Fixpoint int_scan (acc : Z) (digits : N) (s : string)
  : option (Z * N * string) :=
  match s with
  | EmptyString => Some (acc, digits, EmptyString)
  | String c rest =>
      if isdecimal c
      then int_scan (10 * acc + digit_val c) (N.succ digits) rest
      else if Ascii.eqb c "_"
           then match rest with
                | String d _ =>
                    if isdecimal d then int_scan acc digits rest else None
                | EmptyString => None
                end
           else Some (acc, digits, s)
  end.

(** The default of [sys.get_int_max_str_digits()]. *)
Definition int_max_str_digits : N := 4300.

Definition int_invalid : exn :=
  ValueError "invalid literal for int() with base 10".

Definition int_too_long : exn :=
  ValueError "Exceeds the limit (4300 digits) for integer string conversion".

(** The digits of a literal after its sign.  The run of digits is
    scanned first; a run of more than [int_max_str_digits] digits is
    refused before the text after it is looked at. *)
Definition int_unsigned (s : string) : result Z :=
  match s with
  | String c _ =>
      if isdecimal c
      then match int_scan 0 0 s with
           | None => Raise int_invalid
           | Some (z, digits, rest) =>
               if (int_max_str_digits <? digits)%N then Raise int_too_long
               else match rest with
                    | EmptyString => Ok z
                    | String _ _ => Raise int_invalid
                    end
           end
      else Raise int_invalid
  | EmptyString => Raise int_invalid
  end.

(** The white space [int] ignores around a literal: U+0009..U+000D,
    U+0020, U+0085 and U+00A0 (the separators U+001C..U+001F, which
    [str.strip] removes, are not among them). *)
Definition int_space (c : ascii) : bool :=
  let n := N_of_ascii c in
  ((9 <=? n) && (n <=? 13) || (n =? 32) || (n =? 133) || (n =? 160))%N.

Fixpoint int_lstrip (s : string) : string :=
  match s with
  | EmptyString => EmptyString
  | String c s' => if int_space c then int_lstrip s' else s
  end.

Fixpoint int_rstrip (s : string) : string :=
  match s with
  | EmptyString => EmptyString
  | String c s' =>
      match int_rstrip s' with
      | EmptyString => if int_space c then EmptyString else String c EmptyString
      | t => String c t
      end
  end.

(** [int(s)] in base ten: surrounding white space is ignored, one sign
    may precede the digits.  Any other text raises [ValueError], and so
    does a literal of more than 4300 digits. *)
Definition int_of_str (s : string) : result Z :=
  match int_rstrip (int_lstrip s) with
  | String c body =>
      if Ascii.eqb c "+" then int_unsigned body
      else if Ascii.eqb c "-" then rbind (int_unsigned body) (fun z => Ok (- z)%Z)
      else int_unsigned (String c body)
  | EmptyString => Raise int_invalid
  end.

(** The longest prefix of decimal digits, as the greedy [\d+] takes it. *)
Fixpoint take_decimals (s : string) : string :=
  match s with
  | EmptyString => EmptyString
  | String c s' => if isdecimal c then String c (take_decimals s') else EmptyString
  end.

(** An attempt to match [id(\d+)] at the start of [s]; the value is
    group 1. *)
Definition match_id_here (s : string) : option string :=
  match s with
  | String a (String b rest) =>
      if Ascii.eqb a "i" && Ascii.eqb b "d"
      then match take_decimals rest with
           | EmptyString => None
           | ds => Some ds
           end
      else None
  | _ => None
  end.

(** [re.search(r"id(\d+)", s)]: the leftmost position where the pattern
    matches; the value is [match.group(1)]. *)
Fixpoint re_search_id (s : string) : option string :=
  match s with
  | EmptyString => None
  | String _ s' =>
      match match_id_here s with
      | Some g => Some g
      | None => re_search_id s'
      end
  end.

End PyStr.

(* ================================================================== *)
(** ** Identifier resolution *)

Definition extract_app_id (url_or_id : string) : result string :=
  let s := PyStr.strip url_or_id in
  if PyStr.isdigit s then Ok s
  else match PyStr.re_search_id s with
       | None => Raise (ValueError "Cannot extract App ID from input.")
       | Some group1 => Ok group1
       end.

(* ================================================================== *)
(** ** The element tree of [lxml.etree] *)

Module Xml.

(** A tag in Clark notation [{uri}local]. *)
Record qname : Type := QName { uri : string; local : string }.

Definition qname_eqb (a b : qname) : bool :=
  String.eqb (uri a) (uri b) && String.eqb (local a) (local b).

(** An element: its tag, the text before its first child ([None] when
    there is none) and its child elements in document order. *)
#[warnings="-register-all"]
Inductive element : Type :=
| Element (tag : qname) (text : option string) (children : list element).

Definition tag (e : element) : qname :=
  match e with Element t _ _ => t end.
Definition text (e : element) : option string :=
  match e with Element _ t _ => t end.
Definition children (e : element) : list element :=
  match e with Element _ _ c => c end.

(** [s.split(sep)] for a one-character separator. *)
Fixpoint split_on (sep : ascii) (s : string) : list string :=
  match s with
  | EmptyString => [EmptyString]
  | String c s' =>
      if Ascii.eqb c sep then EmptyString :: split_on sep s'
      else match split_on sep s' with
           | [] => [String c EmptyString]
           | w :: ws => String c w :: ws
           end
  end.

Fixpoint lookup (k : string) (d : list (string * string)) : option string :=
  match d with
  | [] => None
  | (k', v) :: d' => if String.eqb k k' then Some v else lookup k d'
  end.

(** One step [prefix:local] of a path, resolved against the prefix map. *)
Definition resolve_step (namespaces : list (string * string)) (step : string)
  : option qname :=
  match split_on ":" step with
  | [l] => Some (QName "" l)
  | [p; l] => option_map (fun u => QName u l) (lookup p namespaces)
  | _ => None
  end.

Fixpoint resolve_steps (namespaces : list (string * string)) (steps : list string)
  : option (list qname) :=
  match steps with
  | [] => Some []
  | s :: rest =>
      match resolve_step namespaces s, resolve_steps namespaces rest with
      | Some q, Some qs => Some (q :: qs)
      | _, _ => None
      end
  end.

(** A path of child steps separated by [/]. *)
Definition compile_path (namespaces : list (string * string)) (path : string)
  : option (list qname) :=
  resolve_steps namespaces (split_on "/" path).

Definition children_named (q : qname) (e : element) : list element :=
  filter (fun c => qname_eqb (tag c) q) (children e).

(** The elements reached from [ctx] by the child steps, in document order. *)
Fixpoint select (steps : list qname) (ctx : list element) : list element :=
  match steps with
  | [] => ctx
  | q :: rest => select rest (flat_map (children_named q) ctx)
  end.

(** [el.findall(path, namespaces=...)] *)
Definition findall (el : element) (path : string)
  (namespaces : list (string * string)) : result (list element) :=
  match compile_path namespaces path with
  | None => Raise (SyntaxError "prefix not found in prefix map")
  | Some steps => Ok (select steps [el])
  end.

(** [el.findtext(path, namespaces=...)]: [None] when nothing matches,
    otherwise the text of the first match, an element without text
    giving the empty string. *)
Definition findtext (el : element) (path : string)
  (namespaces : list (string * string)) : result (option string) :=
  (found <- findall el path namespaces ;;
   Ok match found with
      | [] => None
      | first :: _ =>
          Some match text first with
               | Some t => t
               | None => EmptyString
               end
      end)%result.

End Xml.

(* ================================================================== *)
(** ** The table of [pandas] *)

Module Pd.

(** A cell of a table: text, an integer, a time-zone-naive timestamp in
    nanoseconds since the epoch, a timestamp that carries a time zone,
    the missing timestamp [NaT] and the missing value [NaN]. *)
Inductive cell : Type :=
| CStr (s : string)
| CInt (z : Z)
| CTime (ns : Z)
| CTimeTz (zone : string) (ns : Z)
| CNaT
| CNaN.

Definition cell_eqb (a b : cell) : bool :=
  match a, b with
  | CStr x, CStr y => String.eqb x y
  | CInt x, CInt y => Z.eqb x y
  | CTime x, CTime y => Z.eqb x y
  | CTimeTz t x, CTimeTz u y => String.eqb t u && Z.eqb x y
  | CNaT, CNaT => true
  | CNaN, CNaN => true
  | _, _ => false
  end.

Fixpoint row_eqb (a b : list cell) : bool :=
  match a, b with
  | [], [] => true
  | x :: a', y :: b' => cell_eqb x y && row_eqb a' b'
  | _, _ => false
  end.

(** Column labels and the rows below them.  The row labels (the index)
    are left out: the script never reads them and writes the table with
    [index=False]. *)
Record DataFrame : Type := Frame {
  columns : list string;
  rows : list (list cell)
}.

Definition dict : Type := list (string * cell).

Fixpoint dict_get (k : string) (d : dict) : option cell :=
  match d with
  | [] => None
  | (k', v) :: d' => if String.eqb k k' then Some v else dict_get k d'
  end.

Definition mem (k : string) (l : list string) : bool :=
  existsb (String.eqb k) l.

(** The keys of the dictionaries in order of first appearance. *)
Fixpoint key_union (seen : list string) (keys : list string) : list string :=
  match keys with
  | [] => seen
  | k :: rest => key_union (if mem k seen then seen else seen ++ [k]) rest
  end.

(** [pd.DataFrame(records)] for a list of dictionaries: one column per
    key, one row per dictionary, [NaN] where a dictionary lacks a key.
    The empty list gives a table without columns. *)
Definition of_records (records : list dict) : DataFrame :=
  let cols := key_union [] (flat_map (map fst) records) in
  {| columns := cols;
     rows := map (fun d => map (fun k => match dict_get k d with
                                         | Some v => v
                                         | None => CNaN
                                         end) cols) records |}.

(** [df.duplicated()] with the default [keep="first"]: a row is marked
    when an equal row stands above it. *)
Fixpoint duplicated_from (seen : list (list cell)) (rs : list (list cell))
  : list bool :=
  match rs with
  | [] => []
  | r :: rest => existsb (row_eqb r) seen :: duplicated_from (r :: seen) rest
  end.

Definition duplicated (df : DataFrame) : list bool :=
  duplicated_from [] (rows df).

(** Selection of the rows whose mask entry is [false]. *)
Fixpoint drop_masked (A : Type) (mask : list bool) (l : list A) : list A :=
  match mask, l with
  | m :: mask', x :: l' =>
      if m then drop_masked mask' l' else x :: drop_masked mask' l'
  | _, _ => []
  end.

(** [df.drop_duplicates()] *)
Definition drop_duplicates (df : DataFrame) : DataFrame :=
  {| columns := columns df;
     rows := drop_masked (duplicated df) (rows df) |}.

Fixpoint index_of (k : string) (l : list string) : option nat :=
  match l with
  | [] => None
  | k' :: l' =>
      if String.eqb k k' then Some 0 else option_map S (index_of k l')
  end.

(** [df[key]]: the cells of a column, [KeyError] when there is no such
    column. *)
Definition getitem (df : DataFrame) (key : string) : result (list cell) :=
  match index_of key (columns df) with
  | None => Raise (KeyError key)
  | Some i => Ok (map (fun r => nth i r CNaN) (rows df))
  end.

(** A datetime column: its time zone ([None] when naive) and its values,
    [None] standing for [NaT]. *)
Record DatetimeSeries : Type := Series {
  tz : option string;
  values : list (option Z)
}.

Definition strings_of (col : list cell) : list string :=
  flat_map (fun c => match c with CStr s => [s] | _ => [] end) col.

(** [pd.to_datetime(col, errors="coerce", utc=True)], [parse] being the
    date parser: a cell that does not parse becomes [NaT]; the result is
    time-zone aware, in UTC. *)
Definition to_datetime_coerce_utc (parse : list string -> string -> option Z)
  (col : list cell) : DatetimeSeries :=
  {| tz := Some "UTC";
     values := map (fun c => match c with
                             | CStr s => parse (strings_of col) s
                             | CTime ns => Some ns
                             | CTimeTz _ ns => Some ns
                             | CInt z => Some z
                             | CNaT | CNaN => None
                             end) col |}.

(** [.dt.tz_convert(None)]: the same instants as naive UTC timestamps;
    a naive column is refused. *)
Definition dt_tz_convert_none (s : DatetimeSeries) : result DatetimeSeries :=
  match tz s with
  | None => Raise (TypeError "Cannot convert tz-naive timestamps")
  | Some _ => Ok {| tz := None; values := values s |}
  end.

(** The cells of a datetime column; they carry the zone of the column. *)
Definition series_cells (s : DatetimeSeries) : list cell :=
  map (fun v => match v, tz s with
                | Some ns, None => CTime ns
                | Some ns, Some zone => CTimeTz zone ns
                | None, _ => CNaT
                end) (values s).

Fixpoint set_nth (A : Type) (i : nat) (v : A) (l : list A) : list A :=
  match i, l with
  | _, [] => []
  | O, _ :: l' => v :: l'
  | S i', x :: l' => x :: set_nth i' v l'
  end.

(** [df[key] = col] for a column as long as the table: the cells of an
    existing column are replaced, a new column is added at the right. *)
Definition setitem (df : DataFrame) (key : string) (col : list cell) : DataFrame :=
  match index_of key (columns df) with
  | Some i =>
      {| columns := columns df;
         rows := map (fun rv => set_nth i (snd rv) (fst rv)) (combine (rows df) col) |}
  | None =>
      {| columns := columns df ++ [key];
         rows := map (fun rv => fst rv ++ [snd rv]) (combine (rows df) col) |}
  end.

(** A written sheet: the header line and the lines below it. *)
Record sheet : Type := Sheet {
  header : list string;
  body : list (list cell)
}.

(** The sheet of [df.to_excel(path, index=False)]: the column labels,
    then the rows, without a column of row labels. *)
Definition to_excel_noindex (df : DataFrame) : sheet :=
  {| header := columns df; body := rows df |}.

(** The largest table a sheet holds. *)
Definition max_rows : N := 1048576.
Definition max_cols : N := 16384.

Definition too_large (df : DataFrame) : bool :=
  ((max_rows <? N.of_nat (List.length (rows df)))
   || (max_cols <? N.of_nat (List.length (columns df))))%N.

(** Some cell is a timestamp with a time zone, which a sheet cannot
    hold. *)
Definition tz_aware (df : DataFrame) : bool :=
  existsb (existsb (fun c => match c with CTimeTz _ _ => true | _ => false end))
    (rows df).

End Pd.

(* ================================================================== *)
(** ** Configuration and environment *)

(** The block of constants at the head of the script. *)
Record config : Type := Config {
  APP_URL : string;
  COUNTRY : string;
  MAX_PAGES : nat;
  OUTPUT_FILE : string
}.

Definition script_config : config :=
  {| APP_URL := "https://apps.apple.com/us/app/meitu-ai-photo-video-editor/id416048305";
     COUNTRY := "gb";
     MAX_PAGES := 10;
     OUTPUT_FILE := "meitu_gb_reviews.xlsx" |}.

(** What the libraries and the outside world contribute to a run.
    - [http_get url] is [requests.get(url, headers=..., timeout=20)]
      followed by [raise_for_status()] and [.content];
    - [fromstring] is [etree.fromstring];
    - [parse_datetime column s] is the date parser behind
      [pd.to_datetime] applied to the cell [s] of [column]: the instant in
      nanoseconds since the epoch, UTC, or [None] when [s] does not parse;
    - [excel_open path] is the creation of the [ExcelWriter] of
      [to_excel]: the choice of an engine by the extension of [path],
      its import and the opening of the file, any of which may raise;
    - [excel_save path sheet] is the writing of the cells and the saving
      of the workbook. *)
Record env : Type := Env {
  http_get : string -> result (list Byte.byte);
  fromstring : list Byte.byte -> result Xml.element;
  parse_datetime : list string -> string -> option Z;
  excel_open : string -> result unit;
  excel_save : string -> Pd.sheet -> result unit
}.

(* ================================================================== *)
(** ** Feed parsing *)

(** The dictionary appended to [rows] for one review. *)
Record review : Type := Review {
  username : string;
  published_at : string;
  rating : Z;
  title : string;
  content : string
}.

Definition namespaces : list (string * string) :=
  [("atom", "http://www.w3.org/2005/Atom");
   ("im", "http://itunes.apple.com/rss")].

(** [(entry.findtext(path, namespaces=namespaces) or "").strip()] *)
Definition text_field (entry : Xml.element) (path : string) : result string :=
  (t <- Xml.findtext entry path namespaces ;;
   Ok (PyStr.strip (match t with
                    | Some s => PyStr.str_or s ""
                    | None => ""
                    end)))%result.

(** The timestamp: [updated], or else [published], or else [""], each
    alternative taken when the one before it is [None] or empty. *)
Definition timestamp_field (entry : Xml.element) : result string :=
  (u <- Xml.findtext entry "atom:updated" namespaces ;;
   match u with
   | Some (String c s) => Ok (PyStr.strip (String c s))
   | _ =>
       p <- Xml.findtext entry "atom:published" namespaces ;;
       Ok (PyStr.strip (match p with
                        | Some s => PyStr.str_or s ""
                        | None => ""
                        end))
   end)%result.

(** [int(rating.strip())] *)
Definition int_rating (rating : string) : result Z :=
  PyStr.int_of_str (PyStr.strip rating).

(** The dictionary literal of the loop body, its items evaluated in the
    order they are written. *)
Definition entry_row (entry : Xml.element) (rating : string) : result review :=
  (u <- text_field entry "atom:author/atom:name" ;;
   p <- timestamp_field entry ;;
   r <- int_rating rating ;;
   t <- text_field entry "atom:title" ;;
   c <- text_field entry "atom:content" ;;
   Ok {| username := u; published_at := p; rating := r;
         title := t; content := c |})%result.

(** The [for entry in ...] loop, [rows] being the list built so far. *)
Fixpoint parse_entries (entries : list Xml.element) (rows : list review)
  : result (list review) :=
  match entries with
  | [] => Ok rows
  | entry :: rest =>
      (rating <- Xml.findtext entry "im:rating" namespaces ;;
       match rating with
       | None => parse_entries rest rows
       | Some rating =>
           row <- entry_row entry rating ;;
           parse_entries rest (rows ++ [row])
       end)%result
  end.

(** [parse_reviews] after [etree.fromstring]. *)
Definition parse_root (root : Xml.element) : result (list review) :=
  (entries <- Xml.findall root "atom:entry" namespaces ;;
   parse_entries entries [])%result.

Definition parse_reviews (E : env) (xml_bytes : list Byte.byte)
  : result (list review) :=
  (root <- fromstring E xml_bytes ;; parse_root root)%result.

(* ================================================================== *)
(** ** Effects: a trace of events *)

Inductive event : Type :=
| EPrint (line : string)
| EGet (url : string)
| ESleep
| EWrite (path : string) (s : Pd.sheet).

(** A computation: the events it performs, then its value or the
    exception that ends it. *)
Definition io (A : Type) : Type := (list event * result A)%type.

Definition ret {A : Type} (a : A) : io A := ([], Ok a).

Definition bind {A B : Type} (m : io A) (k : A -> io B) : io B :=
  match snd m with
  | inl e => (fst m, inl e)
  | inr a => (fst m ++ fst (k a), snd (k a))
  end.

Definition lift {A : Type} (r : result A) : io A := ([], r).
Definition emit (e : event) : io unit := ([e], Ok tt).

Declare Scope io_scope.
Delimit Scope io_scope with io.
Notation "x <- m ;; k" := (bind m (fun x => k))
  (at level 61, m at next level, right associativity) : io_scope.
Notation "m ;; k" := (bind m (fun _ => k))
  (at level 61, right associativity) : io_scope.

(* ================================================================== *)
(** ** Fetching and the driver *)

Definition feed_url (app_id country : string) (page : nat) : string :=
  ("https://itunes.apple.com/" ++ country ++ "/rss/customerreviews/"
   ++ "page=" ++ PyStr.str_of_nat page ++ "/id=" ++ app_id
   ++ "/sortby=mostrecent/xml")%string.

Definition fetch_reviews_xml (E : env) (app_id country : string) (page : nat)
  : io (list Byte.byte) :=
  let url := feed_url app_id country page in
  (emit (EGet url) ;; lift (http_get E url))%io.

(** [range(lo, hi)] *)
Definition range (lo hi : nat) : list nat := seq lo (hi - lo).

(** The dictionary of a review, keys in the order of the literal. *)
Definition review_dict (r : review) : Pd.dict :=
  [("username", Pd.CStr (username r));
   ("published_at", Pd.CStr (published_at r));
   ("rating", Pd.CInt (rating r));
   ("title", Pd.CStr (title r));
   ("content", Pd.CStr (content r))].

(** The page loop of [main] over the pages still to visit; the value is
    [all_reviews] when the loop is left. *)
Fixpoint page_loop (E : env) (cfg : config) (app_id : string)
  (pages : list nat) (all_reviews : list review) : io (list review) :=
  match pages with
  | [] => ret all_reviews
  | page :: rest =>
      (emit (EPrint ("Fetching page " ++ PyStr.str_of_nat page ++ "...")) ;;
       xml_data <- fetch_reviews_xml E app_id (COUNTRY cfg) page ;;
       reviews <- lift (parse_reviews E xml_data) ;;
       match reviews with
       | [] => ret all_reviews
       | _ :: _ =>
           emit ESleep ;;
           page_loop E cfg app_id rest (all_reviews ++ reviews)
       end)%io
  end.

Definition newline : string := String (ascii_of_nat 10) EmptyString.

(** What [df.to_excel(path, index=False)] raises, if anything: a table
    too large for a sheet is refused first, then the writer is created,
    then the cells are written, a timestamp with a time zone being
    refused, and the workbook is saved. *)
Definition write_excel (E : env) (df : Pd.DataFrame) (path : string)
  : result unit :=
  if Pd.too_large df then Raise (ValueError "This sheet is too large!")
  else (_ <- excel_open E path ;;
        if Pd.tz_aware df
        then Raise (ValueError "Excel does not support datetimes with timezones.")
        else excel_save E path (Pd.to_excel_noindex df))%result.

(** [df.to_excel(path, index=False)]; a write that ended normally is
    recorded in the trace, what a failed write leaves behind is not. *)
Definition to_excel (E : env) (df : Pd.DataFrame) (path : string) : io unit :=
  (lift (write_excel E df path) ;;
   emit (EWrite path (Pd.to_excel_noindex df)))%io.

(** What follows the loop: the table, the timestamp column, the file. *)
Definition export (E : env) (cfg : config) (all_reviews : list review) : io unit :=
  (let df := Pd.drop_duplicates (Pd.of_records (map review_dict all_reviews)) in
   col <- lift (Pd.getitem df "published_at") ;;
   utc <- lift (Pd.dt_tz_convert_none
                  (Pd.to_datetime_coerce_utc (parse_datetime E) col)) ;;
   let df := Pd.setitem df "published_at" (Pd.series_cells utc) in
   to_excel E df (OUTPUT_FILE cfg) ;;
   emit (EPrint (newline ++ "Done.")) ;;
   emit (EPrint ("Total UK reviews fetched: "
                ++ PyStr.str_of_nat (List.length (Pd.rows df)))) ;;
   emit (EPrint ("Saved to file: " ++ OUTPUT_FILE cfg)))%io.

Definition main (E : env) (cfg : config) : io unit :=
  (app_id <- lift (extract_app_id (APP_URL cfg)) ;;
   all_reviews <- page_loop E cfg app_id (range 1 (MAX_PAGES cfg + 1)) [] ;;
   export E cfg all_reviews)%io.

(** The page requests of a trace, in order. *)
Definition requested (t : list event) : list string :=
  flat_map (fun e => match e with EGet url => [url] | _ => [] end) t.

(** The sheets written to [path], in order. *)
Definition written (path : string) (t : list event) : list Pd.sheet :=
  flat_map (fun e => match e with
                     | EWrite p s => if String.eqb p path then [s] else []
                     | _ => []
                     end) t.

(* ================================================================== *)
(** ** Vocabulary of the properties *)

Definition starts_with_decimal (s : string) : bool :=
  match s with
  | String c _ => PyStr.isdecimal c
  | EmptyString => false
  end.

(** [s] holds the text [id] followed by the digits [ds], and by no
    further digit, right after the prefix [pre]. *)
Definition id_digits_at (s pre ds : string) : Prop :=
  exists post,
    s = (pre ++ "id" ++ ds ++ post)%string
    /\ ds <> EmptyString
    /\ PyStr.forallb_str PyStr.isdecimal ds = true
    /\ starts_with_decimal post = false.

Definition contains_id_digits (s : string) : Prop :=
  exists pre ds, id_digits_at s pre ds.

(** [ds] are the digits of the first [id<digits>] of [s]. *)
Definition leftmost_id_digits (s ds : string) : Prop :=
  exists pre,
    id_digits_at s pre ds
    /\ forall pre' ds', id_digits_at s pre' ds' ->
                        String.length pre <= String.length pre'.

(** The entries of a document, as the parser enumerates them. *)
Definition entries_of (root : Xml.element) : list Xml.element :=
  match Xml.findall root "atom:entry" namespaces with
  | inr entries => entries
  | inl _ => []
  end.

(** An entry carries a rating field when [findtext] finds one. *)
Definition carries_rating (entry : Xml.element) : bool :=
  match Xml.findtext entry "im:rating" namespaces with
  | inr (Some _) => true
  | _ => false
  end.

(** The rating text of an entry is a literal that [int] reads. *)
Definition rating_converts (entry : Xml.element) : Prop :=
  exists rating z,
    Xml.findtext entry "im:rating" namespaces = Ok (Some rating)
    /\ PyStr.int_of_str (PyStr.strip rating) = Ok z.

(** [r] is the row the loop body builds for [entry]. *)
Definition row_of (entry : Xml.element) (r : review) : Prop :=
  exists rating,
    Xml.findtext entry "im:rating" namespaces = Ok (Some rating)
    /\ entry_row entry rating = Ok r.




Definition int_error : exn := PyStr.int_invalid.

(** The two errors of [int]. *)
Definition is_int_error (e : exn) : Prop :=
  e = PyStr.int_invalid \/ e = PyStr.int_too_long.

(** The rating text of an entry makes [int] raise [e]. *)
Definition rating_fails (e : exn) (entry : Xml.element) : Prop :=
  exists rtext,
    Xml.findtext entry "im:rating" namespaces = Ok (Some rtext)
    /\ PyStr.int_of_str (PyStr.strip rtext) = Raise e.

Definition atom (l : string) : Xml.qname :=
  Xml.QName "http://www.w3.org/2005/Atom" l.
Definition im (l : string) : Xml.qname :=
  Xml.QName "http://itunes.apple.com/rss" l.

(** A feed entry given by its fields, each present or not; a field
    present without text is given as [Some ""]. *)
Definition leaf (q : Xml.qname) (s : string) : Xml.element :=
  Xml.Element q (match s with EmptyString => None | _ => Some s end) [].

Definition field_el (q : Xml.qname) (t : option string) : list Xml.element :=
  match t with
  | Some s => [leaf q s]
  | None => []
  end.

Definition mk_entry (name updated published rating title content : option string)
  : Xml.element :=
  Xml.Element (atom "entry") None
    ((match name with
      | Some n => [Xml.Element (atom "author") None [leaf (atom "name") n]]
      | None => []
      end)
     ++ field_el (atom "updated") updated
     ++ field_el (atom "published") published
     ++ field_el (im "rating") rating
     ++ field_el (atom "title") title
     ++ field_el (atom "content") content).

Definition mk_feed (entries : list Xml.element) : Xml.element :=
  Xml.Element (atom "feed") None entries.


(** The field is absent, or present without text. *)
Definition no_text (entry : Xml.element) (path : string) : Prop :=
  Xml.findtext entry path namespaces = Ok None
  \/ Xml.findtext entry path namespaces = Ok (Some EmptyString).

(** How the timestamp of a row follows from the entry. *)
Definition timestamp_rule (entry : Xml.element) (r : review) : Prop :=
  (forall u, Xml.findtext entry "atom:updated" namespaces = Ok (Some u) ->
             u <> EmptyString -> published_at r = PyStr.strip u)
  /\ (forall p, no_text entry "atom:updated" ->
                Xml.findtext entry "atom:published" namespaces = Ok (Some p) ->
                published_at r = PyStr.strip p)
  /\ (no_text entry "atom:updated" ->
      Xml.findtext entry "atom:published" namespaces = Ok None ->
      published_at r = EmptyString).

(** Sample documents. *)

(** A feed whose first entry describes the application and carries no
    rating, followed by two reviews. *)
Definition feed_two_reviews : Xml.element :=
  mk_feed
    [mk_entry None (Some "2024-05-02T08:00:00-07:00") None None
       (Some "Meitu") None;
     mk_entry (Some " ann ") (Some "2024-05-01T10:00:00-07:00") None
       (Some "5") (Some " Great ") (Some "Love it");
     mk_entry (Some "bob") None (Some "2024-04-30T09:00:00-07:00")
       (Some " 1 ") None None].

(** One entry with the given rating text and nothing else but a name. *)
Definition feed_rating (rtext : string) : Xml.element :=
  mk_feed [mk_entry (Some "ann") None None (Some rtext) None None].

(** A review whose rating text is a word. *)
Definition feed_word_rating : Xml.element :=
  mk_feed
    [mk_entry (Some "ann") (Some "2024-05-01T10:00:00-07:00") None
       (Some "five") (Some "Great") (Some "Love it")].


(** A review whose [updated] element is present and empty. *)
Definition feed_empty_updated : Xml.element :=
  mk_feed
    [mk_entry (Some "ann") (Some "") (Some "2024-04-30T09:00:00-07:00")
       (Some "5") (Some "Great") (Some "Love it")].

(** The table of line 101: the accumulated reviews without repeated
    rows. *)
Definition table_of (all_reviews : list review) : Pd.DataFrame :=
  Pd.drop_duplicates (Pd.of_records (map review_dict all_reviews)).

Definition review_columns : list string :=
  ["username"; "published_at"; "rating"; "title"; "content"].

(** The row of cells a review becomes in the table. *)
Definition row_cells (r : review) : list Pd.cell :=
  [Pd.CStr (username r); Pd.CStr (published_at r); Pd.CInt (rating r);
   Pd.CStr (title r); Pd.CStr (content r)].

(** The texts of the timestamp column handed to the date parser. *)
Definition timestamp_texts (all_reviews : list review) : list string :=
  Pd.strings_of
    (map (fun row => nth 1 row Pd.CNaN) (Pd.rows (table_of all_reviews))).

(** The cell the coercion puts in place of the timestamp text [ts]. *)
Definition coerced (E : env) (all_reviews : list review) (ts : string) : Pd.cell :=
  match parse_datetime E (timestamp_texts all_reviews) ts with
  | Some ns => Pd.CTime ns
  | None => Pd.CNaT
  end.

(** A row of the table after the coercion of its timestamp. *)
Definition coerce_row (E : env) (all_reviews : list review)
  (row : list Pd.cell) : list Pd.cell :=
  match row with
  | [u; Pd.CStr ts; r; t; c] => [u; coerced E all_reviews ts; r; t; c]
  | _ => row
  end.

(** What one page gives: the fetch, then the parse. *)
Definition page_reviews (E : env) (cfg : config) (app_id : string) (page : nat)
  : result (list review) :=
  rbind (http_get E (feed_url app_id (COUNTRY cfg) page)) (parse_reviews E).

Definition reviews_of (E : env) (cfg : config) (app_id : string) (page : nat)
  : list review :=
  match page_reviews E cfg app_id page with
  | inr rs => rs
  | inl _ => []
  end.

(** The page was fetched and parsed to at least one review. *)
Definition nonempty_page (E : env) (cfg : config) (app_id : string) (page : nat)
  : Prop :=
  exists r rs, page_reviews E cfg app_id page = Ok (r :: rs).

(** The rows kept when the rows of [seen] stand above [rs]. *)
Definition kept_after (seen rs : list (list Pd.cell)) : list (list Pd.cell) :=
  Pd.drop_masked (Pd.duplicated_from seen rs) rs.

(** The table handed to [to_excel] for a non-empty accumulator. *)
Definition final_frame (E : env) (all_reviews : list review) : Pd.DataFrame :=
  {| Pd.columns := review_columns;
     Pd.rows := map (coerce_row E all_reviews) (Pd.rows (table_of all_reviews)) |}.

(** The sheet written for a non-empty accumulator. *)
Definition final_sheet (E : env) (all_reviews : list review) : Pd.sheet :=
  {| Pd.header := review_columns;
     Pd.body := map (coerce_row E all_reviews) (Pd.rows (table_of all_reviews)) |}.

(** Two sample reviews. *)
Definition review_ann : review :=
  {| username := "ann"; published_at := "2024-05-01T10:00:00-07:00";
     rating := 5; title := "Great"; content := "Love it" |}.

Definition review_bob : review :=
  {| username := "bob"; published_at := "yesterday";
     rating := 1; title := ""; content := "" |}.

(** A page of fifty reviews by fifty reviewers. *)
Definition feed_fifty : Xml.element :=
  mk_feed
    (map (fun i => mk_entry (Some ("user" ++ PyStr.str_of_nat i)%string)
                     (Some "2024-05-01T10:00:00-07:00") None
                     (Some "5") (Some "Great") (Some "Love it"))
       (seq 1 50)).

(** A page with the two sample reviews, the first of them twice. *)
Definition feed_ann_bob_ann : Xml.element :=
  mk_feed
    [mk_entry (Some "ann") (Some "2024-05-01T10:00:00-07:00") None
       (Some "5") (Some "Great") (Some "Love it");
     mk_entry (Some "bob") (Some "yesterday") None (Some "1") None None;
     mk_entry (Some "ann") (Some "2024-05-01T10:00:00-07:00") None
       (Some "5") (Some "Great") (Some "Love it")].

(** [s.endswith(suffix)] *)
Fixpoint endswith (suffix s : string) : bool :=
  if String.eqb s suffix then true
  else match s with
       | EmptyString => false
       | String _ s' => endswith suffix s'
       end.

(** A writer that knows the extension [.xlsx] and no other. *)
Definition xlsx_only (path : string) : result unit :=
  if endswith ".xlsx" path then Ok tt
  else Raise (ValueError "No engine for filetype").

(** A world in which page 1 of the configured application is [page1]
    and every other page is a feed without entries; the date parser
    knows one timestamp, the writer the extension [.xlsx]. *)
Definition sample_env (page1 : Xml.element) : env :=
  {| http_get := fun url =>
       if String.eqb url (feed_url "416048305" "gb" 1)
       then Ok [Byte.x01] else Ok [Byte.x02];
     fromstring := fun body =>
       match body with
       | [Byte.x01] => Ok page1
       | _ => Ok (mk_feed [])
       end;
     parse_datetime := fun _ s =>
       if String.eqb s "2024-05-01T10:00:00-07:00"
       then Some 1714582800000000000%Z else None;
     excel_open := xlsx_only;
     excel_save := fun _ _ => Ok tt |}.

(** The lines printed in a trace, in order. *)
Definition printed (t : list event) : list string :=
  flat_map (fun e => match e with EPrint line => [line] | _ => [] end) t.

(** The number of pauses of a trace. *)
Definition pauses (t : list event) : nat :=
  List.length (filter (fun e => match e with ESleep => true | _ => false end) t).

(** The progress line of a page. *)
Definition progress_line (page : nat) : string :=
  ("Fetching page " ++ PyStr.str_of_nat page ++ "...")%string.

(** The events of one turn of the loop up to the parse. *)
Definition turn_events (cfg : config) (app_id : string) (page : nat)
  : list event :=
  [EPrint (progress_line page); EGet (feed_url app_id (COUNTRY cfg) page)].

(** The three lines printed after the sheet is written. *)
Definition summary_lines (cfg : config) (s : Pd.sheet) : list string :=
  [(newline ++ "Done.")%string;
   ("Total UK reviews fetched: "
    ++ PyStr.str_of_nat (List.length (Pd.body s)))%string;
   ("Saved to file: " ++ OUTPUT_FILE cfg)%string].

(** A world like [sample_env] in which every page after the first
    answers with a server error. *)
Definition sample_env_server_error (page1 : Xml.element) : env :=
  {| http_get := fun url =>
       if String.eqb url (feed_url "416048305" "gb" 1)
       then Ok [Byte.x01] else Raise (HTTPError "503 Server Error");
     fromstring := fun body =>
       match body with
       | [Byte.x01] => Ok page1
       | _ => Ok (mk_feed [])
       end;
     parse_datetime := fun _ s =>
       if String.eqb s "2024-05-01T10:00:00-07:00"
       then Some 1714582800000000000%Z else None;
     excel_open := xlsx_only;
     excel_save := fun _ _ => Ok tt |}.

(** Two reviews that differ in their timestamp text only, neither text
    being a date. *)
Definition review_bob_tomorrow : review :=
  {| username := "bob"; published_at := "tomorrow";
     rating := 1; title := ""; content := "" |}.

Definition feed_bob_twice : Xml.element :=
  mk_feed
    [mk_entry (Some "bob") (Some "yesterday") None (Some "1") None None;
     mk_entry (Some "bob") (Some "tomorrow") None (Some "1") None None].

(** A feed with a link element and an entry outside the Atom namespace
    around one review. *)
Definition feed_with_strangers : Xml.element :=
  mk_feed
    [Xml.Element (atom "link") None [];
     mk_entry (Some "bob") (Some "yesterday") None (Some "1") None None;
     Xml.Element (Xml.QName "" "entry") None
       [leaf (im "rating") "5"]].

(** An entry whose [updated] element holds blanks only. *)
Definition entry_blank_updated : Xml.element :=
  mk_entry (Some "ann") (Some "  ") (Some "2024-04-30T09:00:00-07:00")
    (Some "5") (Some "Great") (Some "Love it").

(** The configuration of the script with a text file as its output. *)
Definition config_csv : config :=
  {| APP_URL := APP_URL script_config;
     COUNTRY := COUNTRY script_config;
     MAX_PAGES := MAX_PAGES script_config;
     OUTPUT_FILE := "reviews.csv" |}.

Fixpoint repeat_char (c : ascii) (n : nat) : string :=
  match n with
  | O => EmptyString
  | S n' => String c (repeat_char c n')
  end.

(** A numeral of 4301 digits. *)
Definition ones_4301 : string := repeat_char "1" 4301.

(** The loop of the run ends with the accumulator [acc]: the run is a
    trace without a write, followed by the export of [acc]. *)
Definition accumulated (E : env) (cfg : config) (acc : list review) : Prop :=
  exists t,
    (forall path, written path t = [])
    /\ main E cfg = (t ++ fst (export E cfg acc), snd (export E cfg acc)).

(* ================================================================== *)
(** * Properties *)

(** ** Strings *)

Section StringFacts.

Import PyStr.

Lemma isdigit_char_not_space (c : ascii) :
  isdigit_char c = true -> isspace c = false.
Proof.
  destruct c as [[|] [|] [|] [|] [|] [|] [|] [|]];
    vm_compute; intros H; solve [reflexivity | discriminate H].
Qed.

Lemma isdecimal_isdigit_char (c : ascii) :
  isdecimal c = true -> isdigit_char c = true.
Proof.
  unfold isdigit_char. intros ->. reflexivity.
Qed.

Lemma isdecimal_not_space (c : ascii) :
  isdecimal c = true -> isspace c = false.
Proof.
  intros H. apply isdigit_char_not_space, isdecimal_isdigit_char, H.
Qed.

Lemma rstrip_no_space (s : string) :
  forallb_str (fun c => negb (isspace c)) s = true -> rstrip s = s.
Proof.
  induction s as [|c s IH]; simpl; [reflexivity|].
  intros H. apply andb_prop in H. destruct H as [Hc Hs].
  rewrite (IH Hs). destruct s; [|reflexivity].
  apply negb_true_iff in Hc. rewrite Hc. reflexivity.
Qed.

Lemma forallb_str_impl (p q : ascii -> bool) (s : string) :
  (forall c, p c = true -> q c = true) ->
  forallb_str p s = true -> forallb_str q s = true.
Proof.
  intros Hpq. induction s as [|c s IH]; simpl; [reflexivity|].
  intros H. apply andb_prop in H. destruct H as [Hc Hs].
  rewrite (Hpq _ Hc), (IH Hs). reflexivity.
Qed.

Lemma forallb_str_app (p : ascii -> bool) (a b : string) :
  forallb_str p (a ++ b) = forallb_str p a && forallb_str p b.
Proof.
  induction a as [|c a IH]; simpl; [reflexivity|].
  rewrite IH, andb_assoc. reflexivity.
Qed.

(** A string that passes [isdigit] is left alone by [strip]. *)
Lemma strip_isdigit (s : string) : isdigit s = true -> strip s = s.
Proof.
  intros H. unfold strip.
  assert (Hall : forallb_str (fun c => negb (isspace c)) s = true).
  { destruct s as [|c s]; [reflexivity|].
    unfold isdigit in H. revert H. apply forallb_str_impl.
    intros a Ha. rewrite (isdigit_char_not_space _ Ha). reflexivity. }
  assert (Hl : lstrip s = s).
  { destruct s as [|c s]; [reflexivity|]. simpl in *.
    apply andb_prop in Hall. destruct Hall as [Hc _].
    apply negb_true_iff in Hc. rewrite Hc. reflexivity. }
  rewrite Hl. apply rstrip_no_space, Hall.
Qed.

End StringFacts.

(** ** The search for [id(\d+)] *)

Section SearchFacts.

Import PyStr.

Lemma take_decimals_app (ds post : string) :
  forallb_str isdecimal ds = true ->
  starts_with_decimal post = false ->
  take_decimals (ds ++ post) = ds.
Proof.
  intros Hds Hpost. induction ds as [|c ds IH]; simpl in *.
  - destruct post as [|p post]; [reflexivity|].
    simpl in *. rewrite Hpost. reflexivity.
  - apply andb_prop in Hds. destruct Hds as [Hc Hds].
    rewrite Hc, (IH Hds). reflexivity.
Qed.

Lemma take_decimals_split (s : string) :
  exists post,
    s = (take_decimals s ++ post)%string
    /\ forallb_str isdecimal (take_decimals s) = true
    /\ starts_with_decimal post = false.
Proof.
  induction s as [|c s (post & Hs & Hall & Hpost)]; simpl.
  - exists EmptyString. repeat split.
  - destruct (isdecimal c) eqn:Hc.
    + exists post. simpl. rewrite Hc, Hall, <- Hs. repeat split. exact Hpost.
    + exists (String c s). simpl. rewrite Hc. repeat split.
Qed.

Lemma match_id_here_sound (s ds : string) :
  match_id_here s = Some ds -> id_digits_at s EmptyString ds.
Proof.
  destruct s as [|a [|b rest]]; simpl; try discriminate.
  destruct (Ascii.eqb_spec a "i"); [|discriminate].
  destruct (Ascii.eqb_spec b "d"); [|discriminate]. subst a b. simpl.
  destruct (take_decimals_split rest) as (post & Hs & Hall & Hpost).
  destruct (take_decimals rest) as [|d ds'] eqn:Htd; [discriminate|].
  intros H. injection H as <-.
  exists post. simpl. rewrite Hs at 1. repeat split; try assumption.
  discriminate.
Qed.

Lemma match_id_here_complete (s ds : string) :
  id_digits_at s EmptyString ds -> match_id_here s = Some ds.
Proof.
  intros (post & -> & Hne & Hall & Hpost). simpl.
  rewrite (take_decimals_app _ _ Hall Hpost).
  destruct ds; [contradiction|reflexivity].
Qed.

Lemma id_digits_at_cons (c : ascii) (s pre ds : string) :
  id_digits_at s pre ds -> id_digits_at (String c s) (String c pre) ds.
Proof.
  intros (post & -> & H). exists post. split; [reflexivity|exact H].
Qed.

Lemma id_digits_at_inv (c : ascii) (s pre ds : string) :
  id_digits_at (String c s) pre ds ->
  pre = EmptyString
  \/ exists pre', pre = String c pre' /\ id_digits_at s pre' ds.
Proof.
  intros (post & Hs & H). destruct pre as [|p pre]; [left; reflexivity|].
  right. simpl in Hs. injection Hs as -> ->.
  exists pre. split; [reflexivity|]. exists post. split; [reflexivity|exact H].
Qed.

Lemma id_digits_at_empty (pre ds : string) :
  ~ id_digits_at EmptyString pre ds.
Proof.
  intros (post & Hs & _). destruct pre; discriminate Hs.
Qed.

(** A successful search returns the digits of the leftmost match. *)
Lemma re_search_id_sound (s ds : string) :
  re_search_id s = Some ds -> leftmost_id_digits s ds.
Proof.
  revert ds. induction s as [|c s IH]; intros ds; [discriminate|].
  cbn [re_search_id].
  destruct (match_id_here (String c s)) as [g|] eqn:Hm.
  - intros H. injection H as <-. exists EmptyString. split.
    + apply match_id_here_sound, Hm.
    + intros pre' ds' _. apply Nat.le_0_l.
  - intros H. destruct (IH _ H) as (pre & Hat & Hmin).
    exists (String c pre). split; [apply id_digits_at_cons, Hat|].
    intros pre' ds' H'. destruct (id_digits_at_inv H') as [-> | (p & -> & Hp)].
    + apply match_id_here_complete in H'. congruence.
    + simpl. apply le_n_S, (Hmin _ _ Hp).
Qed.

Lemma re_search_id_none (s : string) :
  re_search_id s = None -> ~ contains_id_digits s.
Proof.
  induction s as [|c s IH]; intros H (pre & ds & Hat).
  - exact (id_digits_at_empty Hat).
  - cbn [re_search_id] in H.
    destruct (match_id_here (String c s)) as [g|] eqn:Hm; [discriminate|].
    destruct (id_digits_at_inv Hat) as [-> | (p & -> & Hp)].
    + apply match_id_here_complete in Hat. congruence.
    + apply (IH H). exists p, ds. exact Hp.
Qed.

(** The search finds the leftmost match whenever there is one. *)
Lemma re_search_id_complete (s ds : string) :
  leftmost_id_digits s ds -> re_search_id s = Some ds.
Proof.
  intros (pre & Hat & Hmin). revert s Hat Hmin.
  induction pre as [|c pre IH]; intros s Hat Hmin.
  - pose proof (match_id_here_complete Hat) as Hm.
    destruct s as [|a s]; [discriminate Hm|].
    cbn [re_search_id]. rewrite Hm. reflexivity.
  - destruct Hat as (post & -> & Hrest).
    change (String c pre ++ "id" ++ ds ++ post)%string
      with (String c (pre ++ "id" ++ ds ++ post)%string) in *.
    cbn [re_search_id].
    destruct (match_id_here (String c (pre ++ "id" ++ ds ++ post))) as [g|] eqn:Hm.
    + apply match_id_here_sound in Hm. apply Hmin in Hm. simpl in Hm. lia.
    + apply IH.
      * exists post. split; [reflexivity|exact Hrest].
      * intros pre' ds' H'. apply (id_digits_at_cons c) in H'.
        apply Hmin in H'. simpl in H'. lia.
Qed.

Lemma isspace_not_i (c : ascii) : isspace c = true -> Ascii.eqb c "i" = false.
Proof.
  destruct (Ascii.eqb_spec c "i") as [->|]; [discriminate|reflexivity].
Qed.

Lemma isspace_not_d (c : ascii) : isspace c = true -> Ascii.eqb c "d" = false.
Proof.
  destruct (Ascii.eqb_spec c "d") as [->|]; [discriminate|reflexivity].
Qed.

Lemma isspace_not_decimal (c : ascii) : isspace c = true -> isdecimal c = false.
Proof.
  intros H. destruct (isdecimal c) eqn:Hd; [|reflexivity].
  rewrite (isdecimal_not_space _ Hd) in H. discriminate.
Qed.

Lemma lstrip_decomp (s : string) :
  exists ws, forallb_str isspace ws = true /\ s = (ws ++ lstrip s)%string.
Proof.
  induction s as [|c s (ws & Hws & Hs)]; simpl.
  - exists EmptyString. split; reflexivity.
  - destruct (isspace c) eqn:Hc.
    + exists (String c ws). simpl. rewrite Hc, Hws, <- Hs. split; reflexivity.
    + exists EmptyString. split; reflexivity.
Qed.

Lemma rstrip_decomp (s : string) :
  exists ws, forallb_str isspace ws = true /\ s = (rstrip s ++ ws)%string.
Proof.
  induction s as [|c s (ws & Hws & Hs)]; simpl.
  - exists EmptyString. split; reflexivity.
  - destruct (rstrip s) as [|d t] eqn:Hr.
    + simpl in Hs. subst ws. destruct (isspace c) eqn:Hc.
      * exists (String c s). simpl. rewrite Hc, Hws. split; reflexivity.
      * exists s. split; [exact Hws|reflexivity].
    + exists ws. split; [exact Hws|].
      change (String c (String d t) ++ ws)%string
        with (String c (String d t ++ ws)%string).
      rewrite <- Hs. reflexivity.
Qed.

Lemma take_decimals_space_suffix (x ws : string) :
  forallb_str isspace ws = true ->
  take_decimals (x ++ ws) = take_decimals x.
Proof.
  intros Hws. induction x as [|c x IH]; simpl.
  - destruct ws as [|w ws]; [reflexivity|]. simpl in *.
    apply andb_prop in Hws. destruct Hws as [Hw _].
    rewrite (isspace_not_decimal _ Hw). reflexivity.
  - rewrite IH. reflexivity.
Qed.

Lemma match_id_here_space_suffix (x ws : string) :
  forallb_str isspace ws = true ->
  match_id_here (x ++ ws) = match_id_here x.
Proof.
  intros Hws. destruct x as [|a [|b rest]]; simpl.
  - destruct ws as [|w [|w' ws]]; try reflexivity. simpl in *.
    apply andb_prop in Hws. destruct Hws as [Hw _].
    rewrite (isspace_not_i _ Hw). reflexivity.
  - destruct ws as [|w ws]; [reflexivity|]. simpl in *.
    apply andb_prop in Hws. destruct Hws as [Hw _].
    rewrite (isspace_not_d _ Hw), andb_false_r. reflexivity.
  - rewrite (take_decimals_space_suffix _ _ Hws). reflexivity.
Qed.

Lemma re_search_id_space_prefix (ws t : string) :
  forallb_str isspace ws = true ->
  re_search_id (ws ++ t) = re_search_id t.
Proof.
  induction ws as [|w ws IH]; intros Hws; [reflexivity|].
  simpl in Hws. apply andb_prop in Hws. destruct Hws as [Hw Hws].
  change (String w ws ++ t)%string with (String w (ws ++ t)%string).
  cbn [re_search_id].
  replace (match_id_here (String w (ws ++ t))) with (@None string).
  - apply IH, Hws.
  - simpl. destruct (ws ++ t)%string; [reflexivity|].
    rewrite (isspace_not_i _ Hw). reflexivity.
Qed.

Lemma app_empty_r (s : string) : (s ++ "")%string = s.
Proof.
  induction s as [|c s IH]; simpl; [reflexivity|]. rewrite IH. reflexivity.
Qed.

Lemma re_search_id_space_suffix (x ws : string) :
  forallb_str isspace ws = true ->
  re_search_id (x ++ ws) = re_search_id x.
Proof.
  intros Hws. induction x as [|c x IH].
  - simpl. rewrite <- (app_empty_r ws).
    apply (re_search_id_space_prefix _ EmptyString Hws).
  - change (String c x ++ ws)%string with (String c (x ++ ws)%string).
    cbn [re_search_id]. rewrite IH.
    change (String c (x ++ ws)%string) with (String c x ++ ws)%string.
    rewrite (match_id_here_space_suffix _ _ Hws). reflexivity.
Qed.

(** Trimming does not change what the search finds. *)
Lemma re_search_id_strip (s : string) :
  re_search_id (strip s) = re_search_id s.
Proof.
  unfold strip.
  destruct (lstrip_decomp s) as (wl & Hwl & Hl).
  destruct (rstrip_decomp (lstrip s)) as (wr & Hwr & Hr).
  rewrite Hl at 2. rewrite (re_search_id_space_prefix _ _ Hwl).
  rewrite Hr at 2. rewrite (re_search_id_space_suffix _ _ Hwr). reflexivity.
Qed.

(** A string that holds [id] does not pass [isdigit]. *)
Lemma contains_id_not_isdigit (s : string) :
  contains_id_digits s -> isdigit s = false.
Proof.
  intros (pre & ds & post & -> & _).
  assert (H : forallb_str isdigit_char (pre ++ "id" ++ ds ++ post) = false).
  { rewrite forallb_str_app. simpl. apply andb_false_r. }
  unfold isdigit. destruct (pre ++ "id" ++ ds ++ post)%string; [reflexivity|exact H].
Qed.

End SearchFacts.
(** ** Identifier resolution *)

(** C3, as the code has it.  The resolver works on the input with its
    surrounding white space removed.  An input that [str.isdigit]
    accepts comes back unchanged, and more generally a trimmed input of
    digits comes back trimmed; an input that holds [id<digits>] gives the
    digits of its leftmost such pattern; the invalid-input error is
    raised exactly when the trimmed input is not a digit string and the
    input holds no [id<digits>]. *)
Theorem extract_app_id_spec (input : string) :
  (PyStr.isdigit input = true -> extract_app_id input = Ok input)
  /\ (PyStr.isdigit (PyStr.strip input) = true ->
      extract_app_id input = Ok (PyStr.strip input))
  /\ (forall ds, leftmost_id_digits input ds -> extract_app_id input = Ok ds)
  /\ (raises (extract_app_id input) <->
      PyStr.isdigit (PyStr.strip input) = false /\ ~ contains_id_digits input).
Proof.
  assert (Htrim : PyStr.isdigit (PyStr.strip input) = true ->
                  extract_app_id input = Ok (PyStr.strip input)).
  { intros H. unfold extract_app_id. cbv zeta. rewrite H. reflexivity. }
  split; [|split; [exact Htrim|split]].
  - intros H. pose proof (strip_isdigit _ H) as Hs.
    rewrite <- Hs at 2. apply Htrim. rewrite Hs. exact H.
  - intros ds Hleft. apply re_search_id_complete in Hleft.
    rewrite <- re_search_id_strip in Hleft.
    unfold extract_app_id. cbv zeta. rewrite Hleft.
    apply re_search_id_sound in Hleft. destruct Hleft as (pre & Hat & _).
    rewrite contains_id_not_isdigit; [reflexivity|].
    exists pre, ds. exact Hat.
  - unfold extract_app_id, raises. cbv zeta.
    destruct (PyStr.isdigit (PyStr.strip input)) eqn:Hd.
    + split.
      * intros (e & He). discriminate He.
      * intros (H & _). discriminate H.
    + rewrite re_search_id_strip.
      destruct (PyStr.re_search_id input) as [g|] eqn:Hre.
      * split.
        -- intros (e & He). discriminate He.
        -- intros (_ & Hno). exfalso. apply Hno.
           apply re_search_id_sound in Hre. destruct Hre as (pre & Hat & _).
           exists pre, g. exact Hat.
      * split.
        -- intros _. split; [reflexivity|]. apply re_search_id_none, Hre.
        -- intros _. eexists. reflexivity.
Qed.

Lemma extract_app_id_spec_witness :
  extract_app_id "416048305" = Ok "416048305"
  /\ extract_app_id " 416048305 " = Ok "416048305"
  /\ extract_app_id "id416048305" = Ok "416048305"
  /\ raises (extract_app_id "meitu").
Proof.
  split; [|split; [|split]].
  - apply (proj1 (extract_app_id_spec "416048305")). reflexivity.
  - apply (proj1 (proj2 (extract_app_id_spec " 416048305 "))). reflexivity.
  - apply (proj1 (proj2 (proj2 (extract_app_id_spec "id416048305")))).
    exists EmptyString. split.
    + exists EmptyString. repeat split. discriminate.
    + intros pre' ds' _. simpl. lia.
  - apply (proj2 (proj2 (proj2 (extract_app_id_spec "meitu")))).
    split; [reflexivity|]. apply re_search_id_none. reflexivity.
Defined.

(** C3 as worded fails on a digit string with white space around it: the
    input is not all digits and holds no [id<digits>], yet no error is
    raised; the trimmed digits are returned. *)
Lemma extract_app_id_padded_counterexample :
  extract_app_id " 123" = Ok "123"
  /\ ~ (raises (extract_app_id " 123") <->
        PyStr.isdigit " 123" = false /\ ~ contains_id_digits " 123").
Proof.
  split; [reflexivity|].
  intros [_ H]. destruct H as (e & He).
  - split; [reflexivity|]. apply re_search_id_none. reflexivity.
  - discriminate He.
Qed.

(** The scenario of the specification: the storefront address of the
    configuration resolves to the identifier it embeds. *)
Lemma extract_app_id_script_url :
  extract_app_id (APP_URL script_config) = Ok "416048305".
Proof. reflexivity. Qed.

(** ** Feed parsing *)

Section ParseFacts.

(** Texts [int] reads and texts it rejects. *)
Lemma int_of_str_samples :
  PyStr.int_of_str " 5 " = Ok 5%Z
  /\ PyStr.int_of_str "-12" = Ok (-12)%Z
  /\ PyStr.int_of_str "+3" = Ok 3%Z
  /\ PyStr.int_of_str "007" = Ok 7%Z
  /\ PyStr.int_of_str "1_000" = Ok 1000%Z
  /\ PyStr.int_of_str "1__0" = Raise PyStr.int_invalid
  /\ PyStr.int_of_str "+ 5" = Raise PyStr.int_invalid
  /\ PyStr.int_of_str "4.5" = Raise PyStr.int_invalid
  /\ PyStr.int_of_str "five" = Raise PyStr.int_invalid
  /\ PyStr.int_of_str "" = Raise PyStr.int_invalid.
Proof. repeat split. Qed.

(** A numeral of 4301 digits is refused, with or without text after
    it; a doubled underscore after it is an invalid literal. *)
Lemma int_of_str_long_samples :
  PyStr.int_of_str ones_4301 = Raise PyStr.int_too_long
  /\ PyStr.int_of_str (ones_4301 ++ "x") = Raise PyStr.int_too_long
  /\ PyStr.int_of_str (String "-" ones_4301) = Raise PyStr.int_too_long
  /\ PyStr.int_of_str (ones_4301 ++ "__1") = Raise PyStr.int_invalid
  /\ (exists z, PyStr.int_of_str (repeat_char "1" 4300) = Ok z).
Proof.
  repeat split; try (vm_compute; reflexivity).
  eexists. vm_compute. reflexivity.
Qed.

(** [int] raises no other error than its two. *)
Lemma int_of_str_raises (s : string) (e : exn) :
  PyStr.int_of_str s = Raise e -> is_int_error e.
Proof.
  assert (Hu : forall t, PyStr.int_unsigned t = Raise e -> is_int_error e).
  { intros t. unfold PyStr.int_unsigned.
    destruct t as [|c t]; [intros H; injection H as <-; left; reflexivity|].
    destruct (PyStr.isdecimal c);
      [|intros H; injection H as <-; left; reflexivity].
    destruct (PyStr.int_scan 0 0 (String c t)) as [[[z digits] rest]|];
      [|intros H; injection H as <-; left; reflexivity].
    destruct (PyStr.int_max_str_digits <? digits)%N;
      [intros H; injection H as <-; right; reflexivity|].
    destruct rest; [discriminate|].
    intros H; injection H as <-; left; reflexivity. }
  unfold PyStr.int_of_str.
  destruct (PyStr.int_rstrip (PyStr.int_lstrip s)) as [|c body];
    [intros H; injection H as <-; left; reflexivity|].
  destruct (Ascii.eqb c "+"); [apply Hu|].
  destruct (Ascii.eqb c "-"); [|apply Hu].
  destruct (PyStr.int_unsigned body) as [e'|z] eqn:Hb; cbn [rbind];
    [|discriminate].
  intros H. injection H as <-. apply (Hu body Hb).
Qed.

Lemma findtext_total (e : Xml.element) (path : string) :
  In path ["im:rating"; "atom:author/atom:name"; "atom:updated";
           "atom:published"; "atom:title"; "atom:content"] ->
  exists o, Xml.findtext e path namespaces = Ok o.
Proof.
  simpl. intros H.
  repeat (destruct H as [<-|H]; [eexists; reflexivity|]). contradiction.
Qed.

Lemma text_field_total (e : Xml.element) (path : string) :
  In path ["atom:author/atom:name"; "atom:title"; "atom:content"] ->
  exists o,
    Xml.findtext e path namespaces = Ok o
    /\ text_field e path
       = Ok (PyStr.strip (match o with Some s => s | None => EmptyString end)).
Proof.
  intros H.
  destruct (@findtext_total e path) as (o & Ho).
  { simpl in *. tauto. }
  exists o. split; [exact Ho|]. unfold text_field. rewrite Ho. simpl.
  destruct o as [[|c s]|]; reflexivity.
Qed.

(** The timestamp expression never raises; its value is decided by the
    two fields as the chain of [or] reads them. *)
Lemma timestamp_field_total (e : Xml.element) :
  exists u p,
    Xml.findtext e "atom:updated" namespaces = Ok u
    /\ Xml.findtext e "atom:published" namespaces = Ok p
    /\ timestamp_field e
       = Ok (PyStr.strip
               match u with
               | Some (String c s) => String c s
               | _ => match p with Some s => s | None => EmptyString end
               end).
Proof.
  destruct (@findtext_total e "atom:updated") as (u & Hu); [simpl; tauto|].
  destruct (@findtext_total e "atom:published") as (q & Hq); [simpl; tauto|].
  exists u, q. split; [exact Hu|split; [exact Hq|]].
  unfold timestamp_field. rewrite Hu. cbn [rbind].
  destruct u as [[|c s]|]; try reflexivity;
    rewrite Hq; cbn [rbind];
    destruct q as [[|c' s']|]; reflexivity.
Qed.

(** What the loop body builds: it raises exactly when [int] refuses the
    rating text, and otherwise packs the five fields. *)
Lemma entry_row_inv (e : Xml.element) (rtext : string) (r : review) :
  entry_row e rtext = Ok r ->
  text_field e "atom:author/atom:name" = Ok (username r)
  /\ timestamp_field e = Ok (published_at r)
  /\ PyStr.int_of_str (PyStr.strip rtext) = Ok (rating r)
  /\ text_field e "atom:title" = Ok (title r)
  /\ text_field e "atom:content" = Ok (content r).
Proof.
  unfold entry_row, int_rating.
  destruct (text_field e "atom:author/atom:name") as [?|u]; [discriminate|].
  destruct (timestamp_field e) as [?|ts]; [discriminate|].
  destruct (PyStr.int_of_str (PyStr.strip rtext)) as [?|z]; [discriminate|].
  destruct (text_field e "atom:title") as [?|t]; [discriminate|].
  destruct (text_field e "atom:content") as [?|c]; [discriminate|].
  simpl. intros H. injection H as <-. simpl. repeat split.
Qed.

Lemma entry_row_ok (e : Xml.element) (rtext : string) (z : Z) :
  PyStr.int_of_str (PyStr.strip rtext) = Ok z ->
  exists r, entry_row e rtext = Ok r /\ rating r = z.
Proof.
  intros Hz. unfold entry_row, int_rating. rewrite Hz.
  destruct (@text_field_total e "atom:author/atom:name") as (? & _ & ->);
    [simpl; tauto|].
  destruct (timestamp_field_total e) as (? & ? & _ & _ & ->).
  destruct (@text_field_total e "atom:title") as (? & _ & ->); [simpl; tauto|].
  destruct (@text_field_total e "atom:content") as (? & _ & ->); [simpl; tauto|].
  simpl. eexists. split; reflexivity.
Qed.

Lemma entry_row_bad (e : Xml.element) (rtext : string) (x : exn) :
  PyStr.int_of_str (PyStr.strip rtext) = Raise x ->
  entry_row e rtext = Raise x.
Proof.
  intros Hz. unfold entry_row, int_rating. rewrite Hz.
  destruct (@text_field_total e "atom:author/atom:name") as (? & _ & ->);
    [simpl; tauto|].
  destruct (timestamp_field_total e) as (? & ? & _ & _ & ->).
  reflexivity.
Qed.

Lemma carries_rating_true (e : Xml.element) :
  carries_rating e = true ->
  exists rating, Xml.findtext e "im:rating" namespaces = Ok (Some rating).
Proof.
  unfold carries_rating.
  destruct (Xml.findtext e "im:rating" namespaces) as [?|[rating|]];
    try discriminate.
  intros _. exists rating. reflexivity.
Qed.

Lemma carries_rating_false (e : Xml.element) :
  carries_rating e = false ->
  Xml.findtext e "im:rating" namespaces = Ok None.
Proof.
  unfold carries_rating.
  destruct (@findtext_total e "im:rating") as (o & ->); [simpl; tauto|].
  destruct o; [discriminate|reflexivity].
Qed.

(** The rows built so far stay in front of the rows the rest of the
    entries add. *)
Lemma parse_entries_acc (entries : list Xml.element) (rows : list review) :
  parse_entries entries rows
  = rbind (parse_entries entries []) (fun rs => Ok (rows ++ rs)).
Proof.
  revert rows. induction entries as [|e entries IH]; intros rows.
  - simpl. rewrite app_nil_r. reflexivity.
  - cbn [parse_entries].
    destruct (Xml.findtext e "im:rating" namespaces) as [x|[rating|]];
      cbn [rbind]; [reflexivity| |apply IH].
    destruct (entry_row e rating) as [x|row]; cbn [rbind]; [reflexivity|].
    rewrite (IH (rows ++ [row])), (IH ([] ++ [row])).
    destruct (parse_entries entries []) as [x|rs]; cbn [rbind]; [reflexivity|].
    rewrite <- app_assoc. reflexivity.
Qed.

(** When [int] reads every rating text, the loop returns one row per
    rating-bearing entry, in the order of the entries. *)
Lemma parse_entries_ok (entries : list Xml.element) :
  Forall rating_converts (filter carries_rating entries) ->
  exists rs,
    parse_entries entries [] = Ok rs
    /\ Forall2 row_of (filter carries_rating entries) rs.
Proof.
  induction entries as [|e entries IH]; intros Hall.
  - exists []. split; [reflexivity|constructor].
  - cbn [filter] in *. destruct (carries_rating e) eqn:Hc.
    + inversion Hall as [|? ? (rating & z & Hr & Hz) Hall']; subst.
      destruct (IH Hall') as (rs & Hrs & HF).
      destruct (entry_row_ok e _ Hz) as (row & Hrow & _).
      exists (row :: rs). split.
      * cbn [parse_entries]. rewrite Hr. cbn [rbind]. rewrite Hrow. cbn [rbind].
        rewrite parse_entries_acc, Hrs. reflexivity.
      * constructor; [|exact HF]. exists rating. split; assumption.
    + destruct (IH Hall) as (rs & Hrs & HF). exists rs. split; [|exact HF].
      cbn [parse_entries]. rewrite (carries_rating_false _ Hc). exact Hrs.
Qed.

(** One rating text that [int] refuses makes the loop raise, with the
    error of the first such text. *)
Lemma parse_entries_bad (entries : list Xml.element) :
  Exists (fun e => exists x, rating_fails x e) entries ->
  exists x,
    parse_entries entries [] = Raise x /\ Exists (rating_fails x) entries.
Proof.
  induction entries as [|e entries IH]; intros Hex.
  - inversion Hex.
  - cbn [parse_entries].
    destruct (@findtext_total e "im:rating") as (o & Ho); [simpl; tauto|].
    rewrite Ho. cbn [rbind]. destruct o as [rating|].
    + destruct (PyStr.int_of_str (PyStr.strip rating)) as [x|z] eqn:Hz.
      * exists x. rewrite (entry_row_bad e _ Hz). split; [reflexivity|].
        apply Exists_cons_hd. exists rating. split; assumption.
      * destruct (entry_row_ok e _ Hz) as (row & -> & _). cbn [rbind].
        rewrite parse_entries_acc.
        destruct IH as (x & Hx & Hex').
        { inversion Hex as [? ? (x & rating' & Hr' & Hz')|]; subst;
            [|assumption].
          rewrite Ho in Hr'. injection Hr' as <-. congruence. }
        exists x. rewrite Hx. split; [reflexivity|].
        apply Exists_cons_tl, Hex'.
    + destruct IH as (x & Hx & Hex').
      { inversion Hex as [? ? (x & rating' & Hr' & _)|]; subst; [|assumption].
        rewrite Ho in Hr'. discriminate. }
      exists x. split; [exact Hx|]. apply Exists_cons_tl, Hex'.
Qed.

Lemma parse_root_entries (root : Xml.element) :
  parse_root root = parse_entries (entries_of root) [].
Proof. reflexivity. Qed.

End ParseFacts.

(** ** Trimmed text *)

Section TrimFacts.

Import PyStr.





End TrimFacts.

Section RowFacts.


Lemma row_of_timestamp_rule (e : Xml.element) (r : review) :
  row_of e r -> timestamp_rule e r.
Proof.
  intros (rtext & _ & Hrow).
  destruct (entry_row_inv _ _ Hrow) as (_ & Hp & _).
  destruct (timestamp_field_total e) as (u & p & Hu & Hq & Heq).
  rewrite Heq in Hp. injection Hp as Hp. unfold timestamp_rule, no_text.
  rewrite Hu, Hq. split; [|split].
  - intros u' H Hne. injection H as ->. rewrite <- Hp.
    destruct u'; [contradiction|reflexivity].
  - intros p' [H|H] H'; injection H as ->; injection H' as ->;
      rewrite <- Hp; reflexivity.
  - intros [H|H] H'; injection H as ->; injection H' as ->;
      rewrite <- Hp; reflexivity.
Qed.

Lemma row_of_rating (e : Xml.element) (r : review) :
  row_of e r ->
  exists rtext,
    Xml.findtext e "im:rating" namespaces = Ok (Some rtext)
    /\ PyStr.int_of_str (PyStr.strip rtext) = Ok (rating r).
Proof.
  intros (rtext & Hr & Hrow). exists rtext. split; [exact Hr|].
  apply (entry_row_inv _ _ Hrow).
Qed.

Lemma Forall2_impl_rel (A B : Type) (P Q : A -> B -> Prop)
  (l : list A) (l' : list B) :
  (forall a b, P a b -> Q a b) -> Forall2 P l l' -> Forall2 Q l l'.
Proof.
  intros HPQ H. induction H; constructor; auto.
Qed.

Lemma Forall2_same_length (A B : Type) (P : A -> B -> Prop)
  (l : list A) (l' : list B) :
  Forall2 P l l' -> List.length l' = List.length l.
Proof.
  intros H. induction H; simpl; congruence.
Qed.

End RowFacts.

(** ** The parser on a document *)

(** C4, as the code has it.  On every document whose rating texts are
    all literals that [int] reads the parser returns exactly as many rows as there
    are rating-bearing entries, the i-th row being the one built from the
    i-th rating-bearing entry; the entries without a rating add no row
    and raise nothing. *)
Theorem parse_root_one_row_per_rating (root : Xml.element) :
  let rated := filter carries_rating (entries_of root) in
  let unrated := filter (fun e => negb (carries_rating e)) (entries_of root) in
  Forall rating_converts rated ->
  exists rs,
    parse_root root = Ok rs
    /\ List.length rs = List.length rated
    /\ List.length rs + List.length unrated = List.length (entries_of root)
    /\ Forall2 row_of rated rs.
Proof.
  intros rated unrated Hall.
  destruct (parse_entries_ok _ Hall) as (rs & Hrs & HF).
  exists rs. rewrite parse_root_entries.
  pose proof (Forall2_same_length HF) as Hlen.
  repeat split; try assumption.
  rewrite Hlen. unfold unrated. clear.
  induction (entries_of root) as [|e l IH]; simpl; [reflexivity|].
  destruct (carries_rating e); simpl; lia.
Qed.

Lemma parse_root_one_row_per_rating_witness :
  exists rs,
    parse_root feed_two_reviews = Ok rs
    /\ List.length rs = 2
    /\ List.length rs + 1 = 3
    /\ Forall2 row_of (filter carries_rating (entries_of feed_two_reviews)) rs.
Proof.
  apply (parse_root_one_row_per_rating feed_two_reviews).
  repeat constructor; eexists; eexists; split; reflexivity.
Defined.

(** C4 as worded fails on a document whose only entry carries the rating
    text [five]: there is one rating-bearing entry and no row is
    returned, the integer conversion raises. *)
Lemma parse_root_word_rating_counterexample :
  List.length (filter carries_rating (entries_of feed_word_rating)) = 1
  /\ parse_root feed_word_rating = Raise int_error
  /\ ~ (exists rs, parse_root feed_word_rating = Ok rs /\ List.length rs = 1).
Proof.
  split; [reflexivity|]. split; [reflexivity|].
  intros (rs & H & _). discriminate H.
Qed.

(** The rows of the sample feed, as the parser returns them. *)
Lemma parse_root_two_reviews :
  parse_root feed_two_reviews
  = Ok [ {| username := "ann"; published_at := "2024-05-01T10:00:00-07:00";
            rating := 5; title := "Great"; content := "Love it" |};
         {| username := "bob"; published_at := "2024-04-30T09:00:00-07:00";
            rating := 1; title := ""; content := "" |} ].
Proof. reflexivity. Qed.

(** C5, as the code has it.  On every document whose rating texts are
    all literals that [int] reads, the timestamp of the row of a rating-bearing
    entry is the trimmed text of [updated] when that field is present
    with text; when [updated] is absent or has no text it is the trimmed
    text of [published], and the empty string when [published] is absent
    too. *)
Theorem timestamp_updated_then_published (root : Xml.element) :
  Forall rating_converts (filter carries_rating (entries_of root)) ->
  exists rs,
    parse_root root = Ok rs
    /\ Forall2 timestamp_rule (filter carries_rating (entries_of root)) rs.
Proof.
  intros Hall. destruct (parse_entries_ok _ Hall) as (rs & Hrs & HF).
  exists rs. split; [exact Hrs|].
  revert HF. apply Forall2_impl_rel. apply row_of_timestamp_rule.
Qed.

Lemma timestamp_updated_then_published_witness :
  exists rs,
    parse_root feed_two_reviews = Ok rs
    /\ Forall2 timestamp_rule
         (filter carries_rating (entries_of feed_two_reviews)) rs.
Proof.
  apply (timestamp_updated_then_published feed_two_reviews).
  repeat constructor; eexists; eexists; split; reflexivity.
Defined.

(** C5 as worded fails on an entry whose [updated] element is present
    and empty: the row takes the text of [published]. *)
Lemma timestamp_empty_updated_counterexample :
  exists e r,
    entries_of feed_empty_updated = [e]
    /\ parse_root feed_empty_updated = Ok [r]
    /\ Xml.findtext e "atom:updated" namespaces = Ok (Some EmptyString)
    /\ Xml.findtext e "atom:published" namespaces
       = Ok (Some "2024-04-30T09:00:00-07:00")
    /\ published_at r = "2024-04-30T09:00:00-07:00"
    /\ published_at r <> PyStr.strip EmptyString.
Proof.
  eexists. eexists. repeat split. discriminate.
Qed.




(** ** What [int] reads *)

Section IntFacts.

Import PyStr.

Lemma isdecimal_not_int_space (c : ascii) :
  isdecimal c = true -> int_space c = false.
Proof.
  destruct c as [[|] [|] [|] [|] [|] [|] [|] [|]];
    vm_compute; intros H; solve [reflexivity | discriminate H].
Qed.

Lemma int_rstrip_decimals (s : string) :
  forallb_str isdecimal s = true -> int_rstrip s = s.
Proof.
  induction s as [|c s IH]; simpl; [reflexivity|].
  intros H. apply andb_prop in H. destruct H as [Hc Hs].
  rewrite (IH Hs). destruct s; [|reflexivity].
  rewrite (isdecimal_not_int_space _ Hc). reflexivity.
Qed.

Lemma int_scan_decimals (ds : string) (acc : Z) (n : N) :
  forallb_str isdecimal ds = true ->
  exists z,
    int_scan acc n ds
    = Some (z, (n + N.of_nat (String.length ds))%N, EmptyString).
Proof.
  revert acc n. induction ds as [|c ds IH]; intros acc n H.
  - exists acc. simpl. rewrite N.add_0_r. reflexivity.
  - simpl in H. apply andb_prop in H. destruct H as [Hc Hs].
    destruct (IH (10 * acc + digit_val c)%Z (N.succ n) Hs) as (z & Hz).
    exists z. cbn [int_scan String.length]. rewrite Hc, Hz, Nat2N.inj_succ.
    replace (N.succ n + N.of_nat (String.length ds))%N
      with (n + N.succ (N.of_nat (String.length ds)))%N by lia.
    reflexivity.
Qed.

(** On a numeral [int] looks at the number of digits only. *)
Lemma int_of_str_decimals (ds : string) :
  ds <> EmptyString ->
  forallb_str isdecimal ds = true ->
  (String.length ds <= 4300 -> exists z, int_of_str ds = Ok z)
  /\ (4300 < String.length ds -> int_of_str ds = Raise int_too_long).
Proof.
  intros Hne Hall. unfold int_of_str.
  assert (Hl : int_lstrip ds = ds).
  { destruct ds as [|c ds]; [reflexivity|]. simpl in *.
    apply andb_prop in Hall. destruct Hall as [Hc _].
    rewrite (isdecimal_not_int_space _ Hc). reflexivity. }
  rewrite Hl, (int_rstrip_decimals _ Hall).
  destruct ds as [|c ds]; [contradiction|].
  assert (Hc : isdecimal c = true).
  { simpl in Hall. apply andb_prop in Hall. apply Hall. }
  destruct (Ascii.eqb_spec c "+") as [->|_]; [discriminate Hc|].
  destruct (Ascii.eqb_spec c "-") as [->|_]; [discriminate Hc|].
  unfold int_unsigned. rewrite Hc.
  destruct (int_scan_decimals (String c ds) 0 0 Hall) as (z & ->).
  rewrite N.add_0_l. unfold int_max_str_digits. split; intros Hlen.
  - exists z.
    destruct (4300 <? N.of_nat (String.length (String c ds)))%N eqn:Hcmp;
      [|reflexivity].
    apply N.ltb_lt in Hcmp. lia.
  - destruct (4300 <? N.of_nat (String.length (String c ds)))%N eqn:Hcmp;
      [reflexivity|].
    apply N.ltb_ge in Hcmp. lia.
Qed.

Lemma strip_decimals (ds : string) :
  ds <> EmptyString -> forallb_str isdecimal ds = true -> strip ds = ds.
Proof.
  intros Hne Hall. apply strip_isdigit. destruct ds; [contradiction|].
  unfold isdigit. revert Hall. apply forallb_str_impl.
  apply isdecimal_isdigit_char.
Qed.

End IntFacts.

(** C9, as the code has it.  The rating of a row is whatever integer
    [int] reads from the rating text, with no check of its range: on a
    document whose rating texts [int] reads, every rating-bearing entry
    gets a row with that integer; an entry with any such text gets its
    row; and [int] reads every numeral of at most 4300 digits.  A
    rating-bearing entry whose text [int] refuses makes the parse of the
    whole document raise one of the two errors of [int], and [int]
    refuses every numeral of more than 4300 digits. *)
Theorem rating_converted_unchecked :
  (forall root,
      Forall rating_converts (filter carries_rating (entries_of root)) ->
      exists rs,
        parse_root root = Ok rs
        /\ Forall2 (fun e r =>
                      exists rtext,
                        Xml.findtext e "im:rating" namespaces = Ok (Some rtext)
                        /\ PyStr.int_of_str (PyStr.strip rtext) = Ok (rating r))
             (filter carries_rating (entries_of root)) rs)
  /\ (forall rtext z,
         PyStr.int_of_str (PyStr.strip rtext) = Ok z ->
         parse_root (feed_rating rtext)
         = Ok [ {| username := "ann"; published_at := ""; rating := z;
                   title := ""; content := "" |} ])
  /\ (forall ds,
         ds <> EmptyString ->
         PyStr.forallb_str PyStr.isdecimal ds = true ->
         String.length ds <= 4300 ->
         exists z, PyStr.int_of_str (PyStr.strip ds) = Ok z)
  /\ (forall root,
         Exists (fun e => exists x, rating_fails x e) (entries_of root) ->
         exists x,
           parse_root root = Raise x
           /\ is_int_error x
           /\ Exists (rating_fails x) (entries_of root))
  /\ (forall ds,
         PyStr.forallb_str PyStr.isdecimal ds = true ->
         4300 < String.length ds ->
         PyStr.int_of_str (PyStr.strip ds) = Raise PyStr.int_too_long).
Proof.
  split; [|split; [|split; [|split]]].
  - intros root Hall. destruct (parse_entries_ok _ Hall) as (rs & Hrs & HF).
    exists rs. split; [exact Hrs|].
    revert HF. apply Forall2_impl_rel. apply row_of_rating.
  - intros rtext z Hz.
    destruct rtext as [|c rtext]; [discriminate Hz|].
    unfold parse_root, feed_rating.
    change (Xml.findall _ "atom:entry" namespaces)
      with (Ok [mk_entry (Some "ann") None None (Some (String c rtext)) None None]).
    cbn [rbind parse_entries].
    change (Xml.findtext _ "im:rating" namespaces)
      with (Ok (Some (String c rtext))).
    cbn [rbind]. unfold entry_row, int_rating. rewrite Hz. reflexivity.
  - intros ds Hne Hall Hlen. rewrite (strip_decimals Hne Hall).
    apply (proj1 (int_of_str_decimals Hne Hall) Hlen).
  - intros root Hex. rewrite parse_root_entries.
    destruct (parse_entries_bad Hex) as (x & Hx & Hex').
    exists x. split; [exact Hx|]. split; [|exact Hex'].
    apply Exists_exists in Hex'. destruct Hex' as (e & _ & rtext & _ & Hz).
    apply (int_of_str_raises _ Hz).
  - intros ds Hall Hlen.
    assert (Hne : ds <> EmptyString) by (intros ->; simpl in Hlen; lia).
    rewrite (strip_decimals Hne Hall).
    apply (proj2 (int_of_str_decimals Hne Hall) Hlen).
Qed.

Lemma rating_converted_unchecked_witness :
  parse_root (feed_rating "0")
  = Ok [ {| username := "ann"; published_at := ""; rating := 0;
            title := ""; content := "" |} ]
  /\ parse_root (feed_rating "99")
     = Ok [ {| username := "ann"; published_at := ""; rating := 99;
               title := ""; content := "" |} ]
  /\ (exists z, PyStr.int_of_str (PyStr.strip "416048305") = Ok z)
  /\ (exists x, parse_root feed_word_rating = Raise x
                /\ is_int_error x
                /\ Exists (rating_fails x) (entries_of feed_word_rating))
  /\ PyStr.int_of_str (PyStr.strip ones_4301) = Raise PyStr.int_too_long
  /\ exists rs, parse_root feed_two_reviews = Ok rs
                /\ Forall2 (fun e r =>
                      exists rtext,
                        Xml.findtext e "im:rating" namespaces = Ok (Some rtext)
                        /\ PyStr.int_of_str (PyStr.strip rtext) = Ok (rating r))
                     (filter carries_rating (entries_of feed_two_reviews)) rs.
Proof.
  destruct rating_converted_unchecked as (Hall & Hone & Hshort & Hbad & Hlong).
  split; [|split; [|split; [|split; [|split]]]].
  - apply (Hone "0" 0%Z). reflexivity.
  - apply (Hone "99" 99%Z). reflexivity.
  - apply (Hshort "416048305"); [discriminate|reflexivity|simpl; lia].
  - apply (Hbad feed_word_rating). constructor.
    exists PyStr.int_invalid. eexists. split; reflexivity.
  - apply (Hlong ones_4301); vm_compute; [reflexivity|lia].
  - apply (Hall feed_two_reviews).
    repeat constructor; eexists; eexists; split; reflexivity.
Defined.

(** C9 as worded fails on a rating text of 4301 digits: it is an integer
    numeral, and the conversion raises, so that no row is produced. *)
Lemma rating_long_numeral_counterexample :
  PyStr.forallb_str PyStr.isdecimal ones_4301 = true
  /\ parse_root (feed_rating ones_4301) = Raise PyStr.int_too_long
  /\ ~ (exists rs, parse_root (feed_rating ones_4301) = Ok rs).
Proof.
  assert (H : parse_root (feed_rating ones_4301) = Raise PyStr.int_too_long)
    by (vm_compute; reflexivity).
  split; [vm_compute; reflexivity|]. split; [exact H|].
  intros (rs & Hrs). rewrite H in Hrs. discriminate Hrs.
Qed.

(** ** Duplicate rows *)

Section DuplicateFacts.

Import Pd.

Lemma cell_eqb_eq (a b : cell) : cell_eqb a b = true <-> a = b.
Proof.
  destruct a, b; simpl; split; intros H;
    try discriminate H; try reflexivity;
    first
      [ apply String.eqb_eq in H; congruence
      | apply Z.eqb_eq in H; congruence
      | apply andb_prop in H; destruct H as [Ht Hx];
        apply String.eqb_eq in Ht; apply Z.eqb_eq in Hx; congruence
      | injection H as -> ->; rewrite String.eqb_refl, Z.eqb_refl; reflexivity
      | injection H as ->; solve [apply String.eqb_refl | apply Z.eqb_refl] ].
Qed.

Lemma row_eqb_eq (a b : list cell) : row_eqb a b = true <-> a = b.
Proof.
  revert b. induction a as [|x a IH]; intros [|y b]; simpl;
    split; intros H; try discriminate H; try reflexivity.
  - apply andb_prop in H. destruct H as [Hx Ha].
    apply cell_eqb_eq in Hx. apply IH in Ha. congruence.
  - injection H as -> ->. apply andb_true_intro. split.
    + apply cell_eqb_eq. reflexivity.
    + apply IH. reflexivity.
Qed.

Lemma existsb_row_eqb (x : list cell) (l : list (list cell)) :
  existsb (row_eqb x) l = true <-> In x l.
Proof.
  rewrite existsb_exists. split.
  - intros (y & Hy & Heq). apply row_eqb_eq in Heq. subst. exact Hy.
  - intros H. exists x. split; [exact H|]. apply row_eqb_eq. reflexivity.
Qed.

Lemma kept_after_cons (seen : list (list cell)) (r : list cell)
  (rs : list (list cell)) :
  kept_after seen (r :: rs)
  = if existsb (row_eqb r) seen then kept_after (r :: seen) rs
    else r :: kept_after (r :: seen) rs.
Proof. reflexivity. Qed.

Lemma kept_after_In (x : list cell) (rs seen : list (list cell)) :
  In x (kept_after seen rs) <-> In x rs /\ ~ In x seen.
Proof.
  revert seen. induction rs as [|r rs IH]; intros seen.
  - simpl. tauto.
  - rewrite kept_after_cons.
    destruct (existsb (row_eqb r) seen) eqn:Hr.
    + apply existsb_row_eqb in Hr. rewrite IH. simpl. split.
      * intros (Hin & Hns). split; [right; exact Hin|tauto].
      * intros ([<-|Hin] & Hns); [contradiction|].
        split; [exact Hin|]. intros [<-|H]; contradiction.
    + assert (Hnr : ~ In r seen).
      { intros H. apply existsb_row_eqb in H. congruence. }
      simpl. rewrite IH. simpl. split.
      * intros [<-|(Hin & Hns)]; [tauto|]. split; [right; exact Hin|tauto].
      * intros ([<-|Hin] & Hns); [left; reflexivity|].
        destruct (row_eqb r x) eqn:Hrx.
        -- left. apply row_eqb_eq, Hrx.
        -- right. split; [exact Hin|]. intros [H|H]; [|tauto].
           subst x. rewrite (proj2 (row_eqb_eq r r) eq_refl) in Hrx.
           discriminate.
Qed.




End DuplicateFacts.

(** ** The table of the accumulated reviews *)

Section TableFacts.

Lemma key_union_reviews (acc : list review) :
  Pd.key_union review_columns (flat_map (map fst) (map review_dict acc))
  = review_columns.
Proof.
  induction acc as [|r acc IH]; [reflexivity|]. simpl. exact IH.
Qed.

Lemma of_records_reviews (acc : list review) :
  Pd.of_records (map review_dict acc)
  = {| Pd.columns := match acc with [] => [] | _ :: _ => review_columns end;
       Pd.rows := map row_cells acc |}.
Proof.
  unfold Pd.of_records. destruct acc as [|r acc]; [reflexivity|].
  assert (Hcols : Pd.key_union [] (flat_map (map fst) (map review_dict (r :: acc)))
                  = review_columns).
  { simpl. apply key_union_reviews. }
  rewrite Hcols. f_equal. rewrite map_map. apply map_ext. intros a. reflexivity.
Qed.

Lemma table_of_eq (acc : list review) :
  table_of acc
  = {| Pd.columns := match acc with [] => [] | _ :: _ => review_columns end;
       Pd.rows := kept_after [] (map row_cells acc) |}.
Proof.
  unfold table_of. rewrite of_records_reviews. reflexivity.
Qed.

Lemma row_cells_inj (r1 r2 : review) : row_cells r1 = row_cells r2 -> r1 = r2.
Proof.
  destruct r1, r2. unfold row_cells. simpl. intros H.
  injection H as -> -> -> -> ->. reflexivity.
Qed.


Lemma table_rows_In (acc : list review) (row : list Pd.cell) :
  In row (Pd.rows (table_of acc)) <-> exists r, In r acc /\ row = row_cells r.
Proof.
  rewrite table_of_eq. simpl. rewrite kept_after_In, in_map_iff. simpl.
  split.
  - intros ((r & <- & Hin) & _). exists r. split; [exact Hin|reflexivity].
  - intros (r & Hin & ->). split; [|tauto]. exists r. split; [reflexivity|exact Hin].
Qed.

Lemma map_combine_map (A B C : Type) (F : A * B -> C) (G : A -> B) (l : list A) :
  map F (combine l (map G l)) = map (fun x => F (x, G x)) l.
Proof.
  induction l as [|a l IH]; simpl; [reflexivity|]. rewrite IH. reflexivity.
Qed.

(** The table after the coercion of its timestamp column. *)
Lemma coerced_table (E : env) (acc : list review) :
  acc <> [] ->
  Pd.getitem (table_of acc) "published_at"
  = Ok (map (fun r => nth 1 r Pd.CNaN) (Pd.rows (table_of acc)))
  /\ forall zone,
       Pd.setitem (table_of acc) "published_at"
         (Pd.series_cells
            {| Pd.tz := zone;
               Pd.values :=
                 Pd.values
                   (Pd.to_datetime_coerce_utc (parse_datetime E)
                      (map (fun r => nth 1 r Pd.CNaN)
                         (Pd.rows (table_of acc)))) |})
       = {| Pd.columns := review_columns;
            Pd.rows :=
              map (fun row =>
                     match zone, coerce_row E acc row with
                     | Some z, [u; Pd.CTime ns; r; t; c] =>
                         [u; Pd.CTimeTz z ns; r; t; c]
                     | _, row' => row'
                     end) (Pd.rows (table_of acc)) |}.
Proof.
  intros Hne.
  assert (Hcols : Pd.columns (table_of acc) = review_columns).
  { rewrite table_of_eq. destruct acc; [contradiction|reflexivity]. }
  split.
  - unfold Pd.getitem. rewrite Hcols. reflexivity.
  - intros zone. unfold Pd.setitem, Pd.series_cells. rewrite Hcols.
    change (Pd.index_of "published_at" review_columns) with (Some 1%nat).
    cbn [Pd.values Pd.tz Pd.to_datetime_coerce_utc]. f_equal.
    rewrite !map_map, map_combine_map.
    apply map_ext_in. intros row Hrow.
    apply table_rows_In in Hrow. destruct Hrow as (r & _ & ->).
    unfold coerce_row, row_cells, coerced, timestamp_texts. cbn [nth fst snd].
    destruct (parse_datetime E
                (Pd.strings_of
                   (map (fun row => nth 1 row Pd.CNaN) (Pd.rows (table_of acc))))
                (published_at r)); destruct zone; reflexivity.
Qed.


Lemma coerced_table_naive (E : env) (acc : list review) :
  acc <> [] ->
  Pd.setitem (table_of acc) "published_at"
    (Pd.series_cells
       {| Pd.tz := None;
          Pd.values :=
            Pd.values
              (Pd.to_datetime_coerce_utc (parse_datetime E)
                 (map (fun r => nth 1 r Pd.CNaN) (Pd.rows (table_of acc)))) |})
  = final_frame E acc.
Proof.
  intros Hne. rewrite (proj2 (coerced_table E Hne) None). reflexivity.
Qed.

(** After a loop that gathered at least one review the export hands the
    coerced table to [to_excel]; its outcome is the outcome of the
    write, and the summary follows a write that ended normally. *)
Lemma export_nonempty (E : env) (cfg : config) (acc : list review) :
  acc <> [] ->
  export E cfg acc
  = match write_excel E (final_frame E acc) (OUTPUT_FILE cfg) with
    | inl e => ([], Raise e)
    | inr _ =>
        (EWrite (OUTPUT_FILE cfg) (final_sheet E acc)
         :: map EPrint (summary_lines cfg (final_sheet E acc)),
         Ok tt)
    end.
Proof.
  intros Hne. unfold export, to_excel. fold (table_of acc). cbv zeta.
  rewrite (proj1 (coerced_table E Hne)). unfold lift, bind, emit.
  cbn [fst snd app Pd.dt_tz_convert_none Pd.tz Pd.to_datetime_coerce_utc].
  rewrite (coerced_table_naive E Hne).
  destruct (write_excel E (final_frame E acc) (OUTPUT_FILE cfg)) as [e|u];
    cbn [fst snd app]; [reflexivity|].
  unfold summary_lines, final_sheet, final_frame, Pd.to_excel_noindex.
  cbn [Pd.body Pd.rows Pd.columns map]. rewrite length_map. reflexivity.
Qed.

(** After a loop that gathered nothing the table has no column and the
    reading of the timestamp column raises; nothing is written. *)
Lemma export_empty (E : env) (cfg : config) :
  export E cfg [] = ([], Raise (KeyError "published_at")).
Proof. reflexivity. Qed.

End TableFacts.

(** ** The page loop *)

Section LoopFacts.

Variable E : env.
Variable cfg : config.
Variable app_id : string.

(** One turn of the loop. *)
Lemma page_loop_cons (page : nat) (rest : list nat) (acc : list review) :
  page_loop E cfg app_id (page :: rest) acc
  = let pre := [EPrint ("Fetching page " ++ PyStr.str_of_nat page ++ "...");
                EGet (feed_url app_id (COUNTRY cfg) page)] in
    match page_reviews E cfg app_id page with
    | inl e => (pre, Raise e)
    | inr [] => (pre, Ok acc)
    | inr (r :: rs) =>
        (pre ++ ESleep :: fst (page_loop E cfg app_id rest (acc ++ r :: rs)),
         snd (page_loop E cfg app_id rest (acc ++ r :: rs)))
    end.
Proof.
  unfold page_reviews. cbn [page_loop].
  unfold fetch_reviews_xml, bind, emit, lift, ret. cbn [fst snd app rbind].
  destruct (http_get E (feed_url app_id (COUNTRY cfg) page)) as [e|xml];
    cbn [fst snd app rbind]; [reflexivity|].
  destruct (parse_reviews E xml) as [e|[|r rs]]; reflexivity.
Qed.

Lemma requested_app (t1 t2 : list event) :
  requested (t1 ++ t2) = requested t1 ++ requested t2.
Proof. apply flat_map_app. Qed.

Lemma requested_sleep (t : list event) : requested (ESleep :: t) = requested t.
Proof. reflexivity. Qed.

Lemma written_app (path : string) (t1 t2 : list event) :
  written path (t1 ++ t2) = written path t1 ++ written path t2.
Proof. apply flat_map_app. Qed.

Lemma page_loop_writes_nothing (path : string) (pages : list nat)
  (acc : list review) :
  written path (fst (page_loop E cfg app_id pages acc)) = [].
Proof.
  revert acc. induction pages as [|p pages IH]; intros acc.
  - reflexivity.
  - rewrite page_loop_cons. cbv zeta.
    destruct (page_reviews E cfg app_id p) as [e|[|r rs]]; try reflexivity.
    cbn [fst]. rewrite written_app. simpl. apply IH.
Qed.

(** The requests of a run of the loop are those of a prefix of the
    pages, and every page of that prefix but the last gave reviews. *)
Lemma page_loop_requests (pages : list nat) (acc : list review) :
  exists k,
    k <= List.length pages
    /\ requested (fst (page_loop E cfg app_id pages acc))
       = map (feed_url app_id (COUNTRY cfg)) (firstn k pages)
    /\ Forall (nonempty_page E cfg app_id) (firstn (k - 1) pages).
Proof.
  revert acc. induction pages as [|p pages IH]; intros acc.
  - exists 0. repeat split; constructor.
  - rewrite page_loop_cons. cbv zeta.
    destruct (page_reviews E cfg app_id p) as [e|[|r rs]] eqn:Hp.
    + exists 1. simpl. repeat split; [lia|constructor].
    + exists 1. simpl. repeat split; [lia|constructor].
    + destruct (IH (acc ++ r :: rs)) as (k & Hk & Hreq & Hall).
      exists (S k). cbn [fst]. rewrite requested_app. simpl.
      rewrite Hreq. repeat split; [lia|].
      rewrite Nat.sub_0_r. destruct k as [|j]; [constructor|].
      simpl in *. rewrite Nat.sub_0_r in Hall.
      constructor; [|exact Hall]. exists r, rs. exact Hp.
Qed.

(** The loop stops at the first page without reviews. *)
Lemma page_loop_until_empty (visited : list nat) (page : nat)
  (rest : list nat) (acc : list review) :
  Forall (nonempty_page E cfg app_id) visited ->
  page_reviews E cfg app_id page = Ok [] ->
  requested (fst (page_loop E cfg app_id (visited ++ page :: rest) acc))
  = map (feed_url app_id (COUNTRY cfg)) (visited ++ [page])
  /\ snd (page_loop E cfg app_id (visited ++ page :: rest) acc)
     = Ok (acc ++ flat_map (reviews_of E cfg app_id) visited).
Proof.
  intros Hall Hpage. revert acc.
  induction Hall as [|p visited (r & rs & Hp) Hall IH]; intros acc.
  - simpl app. rewrite page_loop_cons, Hpage. simpl. rewrite app_nil_r.
    split; reflexivity.
  - simpl app. rewrite page_loop_cons, Hp. cbv zeta. cbn [fst snd].
    destruct (IH (acc ++ r :: rs)) as (Hreq & Hres).
    rewrite requested_app, requested_sleep, Hreq, Hres. simpl.
    unfold reviews_of at 2. rewrite Hp, <- app_assoc. split; reflexivity.
Qed.

(** The loop that never meets an empty page visits every page. *)
Lemma page_loop_to_ceiling (pages : list nat) (acc : list review) :
  Forall (nonempty_page E cfg app_id) pages ->
  requested (fst (page_loop E cfg app_id pages acc))
  = map (feed_url app_id (COUNTRY cfg)) pages
  /\ snd (page_loop E cfg app_id pages acc)
     = Ok (acc ++ flat_map (reviews_of E cfg app_id) pages).
Proof.
  intros Hall. revert acc.
  induction Hall as [|p pages (r & rs & Hp) Hall IH]; intros acc.
  - simpl. rewrite app_nil_r. split; reflexivity.
  - rewrite page_loop_cons, Hp. cbv zeta. cbn [fst snd].
    destruct (IH (acc ++ r :: rs)) as (Hreq & Hres).
    rewrite requested_app, requested_sleep, Hreq, Hres. simpl.
    unfold reviews_of at 2. rewrite Hp, <- app_assoc. split; reflexivity.
Qed.

Lemma range_from_one (n : nat) : range 1 (n + 1) = seq 1 n.
Proof. unfold range. rewrite Nat.add_sub. reflexivity. Qed.

Lemma firstn_seq_le (k a n : nat) :
  k <= n -> firstn k (seq a n) = seq a k.
Proof.
  revert a n. induction k as [|k IH]; intros a [|n] H;
    try reflexivity; [lia|].
  simpl. rewrite IH by lia. reflexivity.
Qed.

Lemma nonempty_pages_below (j : nat) :
  (forall p, 1 <= p < j -> nonempty_page E cfg app_id p) ->
  Forall (nonempty_page E cfg app_id) (seq 1 (j - 1)).
Proof.
  intros H. apply Forall_forall. intros p Hp. apply in_seq in Hp.
  apply H. lia.
Qed.

End LoopFacts.

Section MainFacts.

Lemma main_eq (E : env) (cfg : config) :
  main E cfg
  = match extract_app_id (APP_URL cfg) with
    | inl e => ([], Raise e)
    | inr app_id =>
        let run := page_loop E cfg app_id (seq 1 (MAX_PAGES cfg)) [] in
        match snd run with
        | inl e => (fst run, Raise e)
        | inr acc => (fst run ++ fst (export E cfg acc), snd (export E cfg acc))
        end
    end.
Proof.
  unfold main. rewrite range_from_one. unfold bind, lift. cbn [fst snd].
  destruct (extract_app_id (APP_URL cfg)) as [e|app_id]; [reflexivity|].
  cbn [app].
  destruct (snd (page_loop E cfg app_id (seq 1 (MAX_PAGES cfg)) []));
    reflexivity.
Qed.

Lemma export_requests_nothing (E : env) (cfg : config) (acc : list review) :
  requested (fst (export E cfg acc)) = [].
Proof.
  destruct acc as [|r acc].
  - reflexivity.
  - rewrite export_nonempty by discriminate.
    destruct (write_excel E (final_frame E (r :: acc)) (OUTPUT_FILE cfg));
      reflexivity.
Qed.

(** A run whose loop gathered at least one review ends as the write of
    the coerced table ends, and writes the sheet when that write ends
    normally. *)
Lemma main_nonempty (E : env) (cfg : config) (app_id : string)
  (acc : list review) :
  extract_app_id (APP_URL cfg) = Ok app_id ->
  snd (page_loop E cfg app_id (range 1 (MAX_PAGES cfg + 1)) []) = Ok acc ->
  acc <> [] ->
  snd (main E cfg) = write_excel E (final_frame E acc) (OUTPUT_FILE cfg)
  /\ written (OUTPUT_FILE cfg) (fst (main E cfg))
     = match write_excel E (final_frame E acc) (OUTPUT_FILE cfg) with
       | inl _ => []
       | inr _ => [final_sheet E acc]
       end.
Proof.
  intros Hid Hloop Hne. rewrite range_from_one in Hloop.
  rewrite main_eq, Hid. cbv zeta. rewrite Hloop.
  rewrite (export_nonempty E cfg Hne).
  destruct (write_excel E (final_frame E acc) (OUTPUT_FILE cfg)) as [e|[]];
    cbn [fst snd]; rewrite written_app, page_loop_writes_nothing;
    split; try reflexivity.
  unfold summary_lines. simpl. rewrite String.eqb_refl. reflexivity.
Qed.

End MainFacts.

(** ** The driver *)

(** C1, on the input it fails on.  When the first page parses to no
    review the accumulator is empty, the table built from it has no
    column, the reading of its timestamp column raises [KeyError] and
    the run ends there: one page was requested and no file is written. *)
Theorem main_without_reviews_raises (E : env) (cfg : config) (app_id : string) :
  extract_app_id (APP_URL cfg) = Ok app_id ->
  1 <= MAX_PAGES cfg ->
  page_reviews E cfg app_id 1 = Ok [] ->
  snd (main E cfg) = Raise (KeyError "published_at")
  /\ written (OUTPUT_FILE cfg) (fst (main E cfg)) = []
  /\ requested (fst (main E cfg)) = [feed_url app_id (COUNTRY cfg) 1].
Proof.
  intros Hid Hmax Hpage. rewrite main_eq, Hid. cbv zeta.
  destruct (MAX_PAGES cfg) as [|n]; [lia|]. cbn [seq].
  rewrite page_loop_cons, Hpage. cbv zeta. cbn [fst snd].
  rewrite export_empty. cbn [fst snd]. repeat split.
Qed.

Lemma main_without_reviews_raises_witness :
  let E := sample_env (mk_feed []) in
  snd (main E script_config) = Raise (KeyError "published_at")
  /\ written "meitu_gb_reviews.xlsx" (fst (main E script_config)) = []
  /\ requested (fst (main E script_config)) = [feed_url "416048305" "gb" 1].
Proof.
  intros E.
  apply (@main_without_reviews_raises E script_config "416048305").
  - reflexivity.
  - simpl. lia.
  - reflexivity.
Defined.

(** The same run for a first page with reviews: the sheet is written
    under the five column names, without a column of row labels. *)
Lemma main_with_reviews_writes :
  let E := sample_env feed_ann_bob_ann in
  snd (main E script_config) = Ok tt
  /\ written "meitu_gb_reviews.xlsx" (fst (main E script_config))
     = [ {| Pd.header := ["username"; "published_at"; "rating"; "title"; "content"];
            Pd.body :=
              [ [Pd.CStr "ann"; Pd.CTime 1714582800000000000; Pd.CInt 5;
                 Pd.CStr "Great"; Pd.CStr "Love it"];
                [Pd.CStr "bob"; Pd.CNaT; Pd.CInt 1; Pd.CStr ""; Pd.CStr ""] ] |} ].
Proof. vm_compute. split; reflexivity. Qed.

(** ** Deduplication *)






(** The rows of the table for the sample accumulator. *)
Lemma table_of_ann_bob_ann :
  Pd.rows (table_of [review_ann; review_bob; review_ann])
  = [row_cells review_ann; row_cells review_bob].
Proof. reflexivity. Qed.

(* ================================================================== *)
(** * Further properties of the script *)

(** ** The resolved identifier *)

(** Whatever the resolver returns is a non-empty string of digits, and
    the resolver maps it to itself. *)
Theorem extract_app_id_idempotent (input id : string) :
  extract_app_id input = Ok id ->
  PyStr.isdigit id = true /\ extract_app_id id = Ok id.
Proof.
  intros H.
  assert (Hd : PyStr.isdigit id = true).
  { unfold extract_app_id in H. cbv zeta in H.
    destruct (PyStr.isdigit (PyStr.strip input)) eqn:Hs.
    - injection H as <-. exact Hs.
    - destruct (PyStr.re_search_id (PyStr.strip input)) as [g|] eqn:Hre;
        [|discriminate H].
      injection H as <-. apply re_search_id_sound in Hre.
      destruct Hre as (pre & (post & _ & Hne & Hall & _) & _).
      destruct g as [|c g]; [contradiction|]. unfold PyStr.isdigit.
      revert Hall. apply forallb_str_impl. apply isdecimal_isdigit_char. }
  split; [exact Hd|].
  unfold extract_app_id. cbv zeta.
  rewrite (strip_isdigit _ Hd), Hd. reflexivity.
Qed.

Lemma extract_app_id_idempotent_witness :
  PyStr.isdigit "416048305" = true
  /\ extract_app_id "416048305" = Ok "416048305".
Proof.
  apply (@extract_app_id_idempotent (APP_URL script_config) "416048305").
  reflexivity.
Defined.

(** ** The parser on parts of a document *)

(** The rows of a list of entries are the rows of its front part
    followed by the rows of its back part; an error in the front part
    comes first. *)
Theorem parse_entries_app (front back : list Xml.element) :
  parse_entries (front ++ back) []
  = rbind (parse_entries front [])
      (fun rows_front =>
         rbind (parse_entries back [])
           (fun rows_back => Ok (rows_front ++ rows_back))).
Proof.
  induction front as [|e front IH].
  - simpl. destruct (parse_entries back []); reflexivity.
  - cbn [app parse_entries].
    destruct (Xml.findtext e "im:rating" namespaces) as [x|[rtext|]];
      cbn [rbind]; [reflexivity| |exact IH].
    destruct (entry_row e rtext) as [x|row]; cbn [rbind]; [reflexivity|].
    rewrite (parse_entries_acc (front ++ back)), (parse_entries_acc front), IH.
    destruct (parse_entries front []) as [x|rf]; cbn [rbind]; [reflexivity|].
    destruct (parse_entries back []) as [x|rb]; cbn [rbind]; [reflexivity|].
    rewrite app_assoc. reflexivity.
Qed.

Lemma entries_of_children (t : Xml.qname) (x : option string)
  (cs : list Xml.element) :
  entries_of (Xml.Element t x cs)
  = filter (fun c => Xml.qname_eqb (Xml.tag c) (atom "entry")) cs.
Proof.
  unfold entries_of, Xml.findall.
  change (Xml.compile_path namespaces "atom:entry") with (Some [atom "entry"]).
  cbn [Xml.select flat_map]. rewrite app_nil_r. reflexivity.
Qed.

(** Only the children of the root that are Atom entries count: the tag
    and the text of the root make no difference, and neither does a
    child with another tag, wherever it stands. *)
Theorem parse_root_ignores_strangers (t t' : Xml.qname) (x x' : option string)
  (before after : list Xml.element) (c : Xml.element) :
  Xml.qname_eqb (Xml.tag c) (atom "entry") = false ->
  parse_root (Xml.Element t x (before ++ c :: after))
  = parse_root (Xml.Element t' x' (before ++ after)).
Proof.
  intros Hc. rewrite !parse_root_entries, !entries_of_children.
  rewrite !filter_app. cbn [filter]. rewrite Hc. reflexivity.
Qed.

Lemma parse_root_ignores_strangers_witness :
  parse_root feed_with_strangers
  = parse_root
      (mk_feed
         [mk_entry (Some "bob") (Some "yesterday") None (Some "1") None None;
          Xml.Element (Xml.QName "" "entry") None [leaf (im "rating") "5"]]).
Proof.
  apply (@parse_root_ignores_strangers (atom "feed") (atom "feed") None None
           [] _ (Xml.Element (atom "link") None [])).
  reflexivity.
Defined.

Lemma lstrip_all_space (s : string) :
  PyStr.forallb_str PyStr.isspace s = true -> PyStr.lstrip s = EmptyString.
Proof.
  induction s as [|c s IH]; simpl; [reflexivity|].
  intros H. apply andb_prop in H. destruct H as [Hc Hs].
  rewrite Hc. apply IH, Hs.
Qed.

(** An [updated] element that holds white space only is taken, not
    passed over: the timestamp of the row is empty even when a
    [published] date is present. *)
Theorem blank_updated_blocks_published (e : Xml.element) (rtext u : string)
  (r : review) :
  entry_row e rtext = Ok r ->
  Xml.findtext e "atom:updated" namespaces = Ok (Some u) ->
  u <> EmptyString ->
  PyStr.forallb_str PyStr.isspace u = true ->
  published_at r = EmptyString.
Proof.
  intros Hrow Hu Hne Hsp.
  destruct (entry_row_inv _ _ Hrow) as (_ & Hp & _).
  destruct (timestamp_field_total e) as (u' & p & Hu' & _ & Heq).
  rewrite Hu in Hu'. injection Hu' as <-.
  rewrite Heq in Hp. injection Hp as Hp. rewrite <- Hp.
  destruct u as [|c u]; [contradiction|].
  unfold PyStr.strip. rewrite (lstrip_all_space _ Hsp). reflexivity.
Qed.

Lemma blank_updated_blocks_published_witness :
  exists r, entry_row entry_blank_updated "5" = Ok r
            /\ published_at r = EmptyString.
Proof.
  eexists. split; [reflexivity|].
  apply (@blank_updated_blocks_published entry_blank_updated "5" "  ").
  - reflexivity.
  - reflexivity.
  - discriminate.
  - reflexivity.
Defined.

(** ** Traces of the loop *)

Section TraceFacts.

Variable E : env.
Variable cfg : config.
Variable app_id : string.

Lemma printed_app (t1 t2 : list event) :
  printed (t1 ++ t2) = printed t1 ++ printed t2.
Proof. apply flat_map_app. Qed.

Lemma pauses_app (t1 t2 : list event) :
  pauses (t1 ++ t2) = pauses t1 + pauses t2.
Proof. unfold pauses. rewrite filter_app, length_app. reflexivity. Qed.

(** The pages split at the first one that gives no review or fails. *)
Lemma pages_split (pages : list nat) :
  Forall (nonempty_page E cfg app_id) pages
  \/ exists visited p rest,
       pages = visited ++ p :: rest
       /\ Forall (nonempty_page E cfg app_id) visited
       /\ (page_reviews E cfg app_id p = Ok []
           \/ exists e, page_reviews E cfg app_id p = Raise e).
Proof.
  induction pages as [|p pages IH]; [left; constructor|].
  destruct (page_reviews E cfg app_id p) as [e|[|r rs]] eqn:Hp.
  - right. exists [], p, pages. repeat split; [constructor|].
    right. exists e. exact Hp.
  - right. exists [], p, pages. repeat split; [constructor|]. left. exact Hp.
  - assert (Hne : nonempty_page E cfg app_id p) by (exists r, rs; exact Hp).
    destruct IH as [Hall|(visited & q & rest & -> & Hall & Hq)].
    + left. constructor; assumption.
    + right. exists (p :: visited), q, rest. repeat split; [|exact Hq].
      constructor; assumption.
Qed.

(** The whole trace and the result of a loop that stops at a page. *)
Lemma page_loop_stop (visited : list nat) (p : nat) (rest : list nat)
  (acc : list review) :
  Forall (nonempty_page E cfg app_id) visited ->
  (forall r rs, page_reviews E cfg app_id p <> Ok (r :: rs)) ->
  fst (page_loop E cfg app_id (visited ++ p :: rest) acc)
  = flat_map (fun q => turn_events cfg app_id q ++ [ESleep]) visited
    ++ turn_events cfg app_id p
  /\ snd (page_loop E cfg app_id (visited ++ p :: rest) acc)
     = match page_reviews E cfg app_id p with
       | inl e => Raise e
       | inr _ => Ok (acc ++ flat_map (reviews_of E cfg app_id) visited)
       end.
Proof.
  intros Hall Hp. revert acc.
  induction Hall as [|q visited (r & rs & Hq) Hall IH]; intros acc.
  - simpl app. rewrite page_loop_cons. cbv zeta.
    destruct (page_reviews E cfg app_id p) as [e|[|r rs]] eqn:Hpp.
    + split; reflexivity.
    + simpl. rewrite app_nil_r. split; reflexivity.
    + exfalso. apply (Hp r rs). reflexivity.
  - simpl app. rewrite page_loop_cons, Hq. cbv zeta. cbn [fst snd].
    destruct (IH (acc ++ r :: rs)) as (Ht & Hr). rewrite Ht, Hr. split.
    + reflexivity.
    + destruct (page_reviews E cfg app_id p); [reflexivity|].
      cbn [flat_map]. unfold reviews_of at 2. rewrite Hq, <- app_assoc.
      reflexivity.
Qed.

(** The whole trace of a loop that visits every page. *)
Lemma page_loop_trace_ceiling (pages : list nat) (acc : list review) :
  Forall (nonempty_page E cfg app_id) pages ->
  fst (page_loop E cfg app_id pages acc)
  = flat_map (fun q => turn_events cfg app_id q ++ [ESleep]) pages.
Proof.
  intros Hall. revert acc.
  induction Hall as [|q pages (r & rs & Hq) Hall IH]; intros acc.
  - reflexivity.
  - rewrite page_loop_cons, Hq. cbv zeta. cbn [fst]. rewrite IH. reflexivity.
Qed.

Lemma turns_requested (l : list nat) :
  requested (flat_map (fun q => turn_events cfg app_id q ++ [ESleep]) l)
  = map (feed_url app_id (COUNTRY cfg)) l.
Proof.
  induction l as [|q l IH]; [reflexivity|]. simpl. rewrite <- IH. reflexivity.
Qed.

Lemma turns_printed (l : list nat) :
  printed (flat_map (fun q => turn_events cfg app_id q ++ [ESleep]) l)
  = map progress_line l.
Proof.
  induction l as [|q l IH]; [reflexivity|]. simpl. rewrite <- IH. reflexivity.
Qed.

Lemma turns_pauses (l : list nat) :
  pauses (flat_map (fun q => turn_events cfg app_id q ++ [ESleep]) l)
  = List.length l.
Proof.
  induction l as [|q l IH]; [reflexivity|].
  cbn [flat_map]. rewrite !pauses_app, IH. reflexivity.
Qed.

Lemma seq_split (l1 : list nat) (x : nat) (l2 : list nat) (a n : nat) :
  seq a n = l1 ++ x :: l2 ->
  l1 = seq a (List.length l1) /\ x = a + List.length l1 /\ List.length l1 < n.
Proof.
  revert a n. induction l1 as [|y l1 IH]; intros a [|n] H; try discriminate H.
  - simpl in H. injection H as <- _. simpl. repeat split; lia.
  - simpl in H. injection H as <- H. destruct (IH _ _ H) as (H1 & H2 & H3).
    simpl. rewrite <- H1. repeat split; lia.
Qed.

(** The requests and the progress lines of a loop over the pages from 1:
    the same pages, in the same order. *)
Lemma page_loop_seq_observed (n : nat) (acc : list review) :
  exists k,
    k <= n
    /\ requested (fst (page_loop E cfg app_id (seq 1 n) acc))
       = map (feed_url app_id (COUNTRY cfg)) (seq 1 k)
    /\ printed (fst (page_loop E cfg app_id (seq 1 n) acc))
       = map progress_line (seq 1 k).
Proof.
  destruct (pages_split (seq 1 n)) as [Hall|(visited & p & rest & Hs & Hall & Hp)].
  - exists n. rewrite (@page_loop_trace_ceiling (seq 1 n) acc Hall).
    rewrite turns_requested, turns_printed. repeat split. lia.
  - destruct (seq_split _ _ _ _ _ Hs) as (Hv & Hx & Hlt).
    assert (Hne : forall r rs, page_reviews E cfg app_id p <> Ok (r :: rs)).
    { intros r rs H. destruct Hp as [Hp|(e & Hp)]; congruence. }
    destruct (@page_loop_stop visited p rest acc Hall Hne) as (Ht & _).
    exists (S (List.length visited)). rewrite Hs, Ht.
    rewrite requested_app, printed_app, turns_requested, turns_printed.
    rewrite seq_S, !map_app, <- Hv, <- Hx. repeat split. lia.
Qed.

End TraceFacts.

Lemma page_loop_requests_only (E : env) (cfg : config) (app_id : string) :
  extract_app_id (APP_URL cfg) = Ok app_id ->
  requested (fst (main E cfg))
  = requested (fst (page_loop E cfg app_id (seq 1 (MAX_PAGES cfg)) [])).
Proof.
  intros Hid. rewrite main_eq, Hid. cbv zeta.
  destruct (snd (page_loop E cfg app_id (seq 1 (MAX_PAGES cfg)) []));
    cbn [fst]; [reflexivity|].
  rewrite requested_app, export_requests_nothing, app_nil_r. reflexivity.
Qed.

(** The ways a run can go. *)
Lemma main_cases (E : env) (cfg : config) :
  (exists e,
      extract_app_id (APP_URL cfg) = Raise e /\ main E cfg = ([], Raise e))
  \/ exists app_id,
       extract_app_id (APP_URL cfg) = Ok app_id
       /\ ((exists e,
               snd (page_loop E cfg app_id (seq 1 (MAX_PAGES cfg)) []) = Raise e
               /\ main E cfg
                  = (fst (page_loop E cfg app_id (seq 1 (MAX_PAGES cfg)) []),
                     Raise e))
           \/ (snd (page_loop E cfg app_id (seq 1 (MAX_PAGES cfg)) []) = Ok []
               /\ main E cfg
                  = (fst (page_loop E cfg app_id (seq 1 (MAX_PAGES cfg)) []),
                     Raise (KeyError "published_at")))
           \/ (exists acc e,
                  acc <> []
                  /\ snd (page_loop E cfg app_id (seq 1 (MAX_PAGES cfg)) [])
                     = Ok acc
                  /\ write_excel E (final_frame E acc) (OUTPUT_FILE cfg)
                     = Raise e
                  /\ main E cfg
                     = (fst (page_loop E cfg app_id (seq 1 (MAX_PAGES cfg)) []),
                        Raise e))
           \/ (exists acc,
                  acc <> []
                  /\ snd (page_loop E cfg app_id (seq 1 (MAX_PAGES cfg)) [])
                     = Ok acc
                  /\ write_excel E (final_frame E acc) (OUTPUT_FILE cfg)
                     = Ok tt
                  /\ main E cfg
                     = (fst (page_loop E cfg app_id (seq 1 (MAX_PAGES cfg)) [])
                        ++ EWrite (OUTPUT_FILE cfg) (final_sheet E acc)
                           :: map EPrint (summary_lines cfg (final_sheet E acc)),
                        Ok tt))).
Proof.
  rewrite main_eq.
  destruct (extract_app_id (APP_URL cfg)) as [e|app_id].
  - left. exists e. split; reflexivity.
  - right. exists app_id. split; [reflexivity|]. cbv zeta.
    destruct (snd (page_loop E cfg app_id (seq 1 (MAX_PAGES cfg)) []))
      as [e|[|r acc]] eqn:Hrun.
    + left. exists e. split; reflexivity.
    + right. left. split; [reflexivity|]. rewrite export_empty.
      cbn [fst snd]. rewrite app_nil_r. reflexivity.
    + right. right.
      rewrite (@export_nonempty E cfg (r :: acc)) by discriminate.
      destruct (write_excel E (final_frame E (r :: acc)) (OUTPUT_FILE cfg))
        as [e|[]] eqn:Hw; cbn [fst snd].
      * left. exists (r :: acc), e. rewrite app_nil_r.
        split; [discriminate|]. split; [reflexivity|].
        split; [exact Hw|reflexivity].
      * right. exists (r :: acc).
        split; [discriminate|]. split; [reflexivity|].
        split; [exact Hw|reflexivity].
Qed.

(** ** Request addresses *)

Lemma length_append (a b : string) :
  String.length (a ++ b) = String.length a + String.length b.
Proof.
  induction a as [|c a IH]; simpl; [reflexivity|]. rewrite IH. reflexivity.
Qed.

Lemma append_inv_head (a x y : string) :
  (a ++ x)%string = (a ++ y)%string -> x = y.
Proof.
  induction a as [|c a IH]; simpl; intros H; [exact H|].
  injection H as H. apply IH, H.
Qed.

Lemma append_inv_tail (x y t : string) :
  (x ++ t)%string = (y ++ t)%string -> x = y.
Proof.
  revert y. induction x as [|c x IH]; intros [|d y] H.
  - reflexivity.
  - apply (f_equal String.length) in H. simpl in H.
    rewrite length_append in H. lia.
  - apply (f_equal String.length) in H. simpl in H.
    rewrite length_append in H. lia.
  - simpl in H. injection H as -> H. f_equal. apply IH, H.
Qed.

Lemma str_of_nat_inj (p q : nat) :
  PyStr.str_of_nat p = PyStr.str_of_nat q -> p = q.
Proof.
  unfold PyStr.str_of_nat. intros H.
  assert (Hnn : forall n, Nat.to_uint n <> Decimal.Nil).
  { intros n. rewrite <- (DecimalNat.Unsigned.of_to n) at 1.
    rewrite DecimalNat.Unsigned.to_of. apply DecimalFacts.unorm_nonnil. }
  apply (f_equal NilZero.uint_of_string) in H.
  rewrite !NilZero.usu in H by apply Hnn.
  injection H as H. apply DecimalNat.Unsigned.to_uint_inj, H.
Qed.

Lemma NoDup_map_injective (A B : Type) (f : A -> B) (l : list A) :
  (forall a b, f a = f b -> a = b) -> NoDup l -> NoDup (map f l).
Proof.
  intros Hinj Hnd. induction Hnd as [|a l Ha Hnd IH]; [constructor|].
  simpl. constructor; [|exact IH].
  intros Hin. apply in_map_iff in Hin. destruct Hin as (b & Hb & Hin).
  apply Hinj in Hb. subst b. contradiction.
Qed.

Lemma summary_requests_nothing (cfg : config) (s : Pd.sheet) :
  requested (EWrite (OUTPUT_FILE cfg) s :: map EPrint (summary_lines cfg s)) = [].
Proof. reflexivity. Qed.

(** The addresses of two pages of one application and storefront differ
    when the page numbers differ, and no run requests an address twice. *)
Theorem requests_never_repeat (E : env) (cfg : config) :
  (forall app_id country p q,
      feed_url app_id country p = feed_url app_id country q -> p = q)
  /\ NoDup (requested (fst (main E cfg))).
Proof.
  assert (Hinj : forall app_id country p q,
             feed_url app_id country p = feed_url app_id country q -> p = q).
  { intros app_id country p q H. unfold feed_url in H.
    do 4 apply append_inv_head in H.
    apply append_inv_tail in H. apply str_of_nat_inj, H. }
  split; [exact Hinj|].
  assert (Hloop : forall app_id,
             NoDup (requested
                      (fst (page_loop E cfg app_id (seq 1 (MAX_PAGES cfg)) [])))).
  { intros app_id.
    destruct (page_loop_seq_observed E cfg app_id (MAX_PAGES cfg) [])
      as (k & _ & -> & _).
    apply NoDup_map_injective; [apply Hinj|apply seq_NoDup]. }
  destruct (extract_app_id (APP_URL cfg)) as [e|app_id] eqn:Hid.
  - rewrite main_eq, Hid. constructor.
  - rewrite (page_loop_requests_only E cfg Hid). apply Hloop.
Qed.

(** ** Failures *)

Lemma seq_around (j n : nat) :
  1 <= j <= n -> seq 1 n = seq 1 (j - 1) ++ j :: seq (S j) (n - j).
Proof.
  intros H. replace n with ((j - 1) + S (n - j)) at 1 by lia.
  rewrite seq_app. cbn [seq]. replace (1 + (j - 1)) with j by lia.
  reflexivity.
Qed.

Lemma seq_last_page (j : nat) : 1 <= j -> seq 1 j = seq 1 (j - 1) ++ [j].
Proof.
  intros H. replace j with (S (j - 1)) at 1 by lia.
  rewrite seq_S. replace (1 + (j - 1)) with j by lia. reflexivity.
Qed.

(** A page that cannot be fetched or parsed ends the run with its error:
    the pages up to it were requested and announced, nothing else is
    printed and no file is written, whatever the pages before gave. *)
Theorem main_aborts_on_page_error (E : env) (cfg : config) (app_id : string)
  (j : nat) (e : exn) :
  extract_app_id (APP_URL cfg) = Ok app_id ->
  1 <= j <= MAX_PAGES cfg ->
  (forall p, 1 <= p < j -> nonempty_page E cfg app_id p) ->
  page_reviews E cfg app_id j = Raise e ->
  snd (main E cfg) = Raise e
  /\ (forall path, written path (fst (main E cfg)) = [])
  /\ requested (fst (main E cfg))
     = map (feed_url app_id (COUNTRY cfg)) (seq 1 j)
  /\ printed (fst (main E cfg)) = map progress_line (seq 1 j).
Proof.
  intros Hid Hj Hbefore Hpage. rewrite main_eq, Hid. cbv zeta.
  rewrite (seq_around Hj).
  assert (Hne : forall r rs, page_reviews E cfg app_id j <> Ok (r :: rs))
    by (intros r rs H; congruence).
  destruct (@page_loop_stop E cfg app_id (seq 1 (j - 1)) j
              (seq (S j) (MAX_PAGES cfg - j)) []
              (@nonempty_pages_below E cfg app_id j Hbefore) Hne)
    as (Ht & Hr).
  rewrite Hpage in Hr. rewrite Hr. cbn [fst snd].
  split; [reflexivity|]. split; [|split].
  - intros path. rewrite <- (seq_around Hj).
    apply page_loop_writes_nothing.
  - rewrite Ht, requested_app, turns_requested, (seq_last_page (proj1 Hj)),
      map_app. reflexivity.
  - rewrite Ht, printed_app, turns_printed, (seq_last_page (proj1 Hj)),
      map_app. reflexivity.
Qed.

Lemma main_aborts_on_page_error_witness :
  let E := sample_env_server_error feed_two_reviews in
  snd (main E script_config) = Raise (HTTPError "503 Server Error")
  /\ (forall path, written path (fst (main E script_config)) = [])
  /\ requested (fst (main E script_config))
     = map (feed_url "416048305" "gb") (seq 1 2)
  /\ printed (fst (main E script_config)) = map progress_line (seq 1 2).
Proof.
  intros E.
  apply (@main_aborts_on_page_error E script_config "416048305" 2).
  - reflexivity.
  - simpl. lia.
  - intros p Hp. replace p with 1 by lia. eexists. eexists. reflexivity.
  - reflexivity.
Defined.

Lemma parse_entries_raise_inv (entries : list Xml.element) (e : exn) :
  parse_entries entries [] = Raise e -> Exists (rating_fails e) entries.
Proof.
  induction entries as [|entry entries IH]; [discriminate|].
  cbn [parse_entries].
  destruct (@findtext_total entry "im:rating") as (o & Ho); [simpl; tauto|].
  rewrite Ho. cbn [rbind]. destruct o as [rtext|].
  - destruct (PyStr.int_of_str (PyStr.strip rtext)) as [x|z] eqn:Hz.
    + rewrite (entry_row_bad entry _ Hz). cbn [rbind].
      intros H. injection H as <-.
      apply Exists_cons_hd. exists rtext. split; [exact Ho|exact Hz].
    + destruct (entry_row_ok entry _ Hz) as (row & -> & _). cbn [rbind].
      rewrite parse_entries_acc.
      destruct (parse_entries entries []) as [x|rs] eqn:Hrest; cbn [rbind];
        [|discriminate].
      intros H. injection H as ->. apply Exists_cons_tl, IH. reflexivity.
  - intros H. apply Exists_cons_tl, IH, H.
Qed.

(** The parse of a document raises only because of a rating text: the
    error is the one [int] raises on the rating text of some
    rating-bearing entry, an invalid literal or a numeral of more than
    4300 digits. *)
Theorem parse_root_raises_only_on_rating (root : Xml.element) (e : exn) :
  parse_root root = Raise e ->
  is_int_error e /\ Exists (rating_fails e) (entries_of root).
Proof.
  rewrite parse_root_entries. intros H.
  apply parse_entries_raise_inv in H. split; [|exact H].
  apply Exists_exists in H. destruct H as (entry & _ & rtext & _ & Hz).
  apply (int_of_str_raises _ Hz).
Qed.

Lemma parse_root_raises_only_on_rating_witness :
  is_int_error PyStr.int_too_long
  /\ Exists (rating_fails PyStr.int_too_long) (entries_of (feed_rating ones_4301)).
Proof.
  apply (@parse_root_raises_only_on_rating (feed_rating ones_4301)
           PyStr.int_too_long).
  vm_compute. reflexivity.
Defined.

Lemma page_loop_error_page (E : env) (cfg : config) (app_id : string)
  (n : nat) (e : exn) :
  snd (page_loop E cfg app_id (seq 1 n) []) = Raise e ->
  exists p, 1 <= p <= n /\ page_reviews E cfg app_id p = Raise e.
Proof.
  intros H.
  destruct (pages_split E cfg app_id (seq 1 n))
    as [Hall|(visited & p & rest & Hs & Hall & Hp)].
  - destruct (@page_loop_to_ceiling E cfg app_id (seq 1 n) [] Hall) as (_ & Hr).
    rewrite Hr in H. discriminate H.
  - destruct (seq_split _ _ _ _ _ Hs) as (_ & Hx & Hlt).
    assert (Hne : forall r rs, page_reviews E cfg app_id p <> Ok (r :: rs)).
    { intros r rs H'. destruct Hp as [Hp|(e' & Hp)]; congruence. }
    destruct (@page_loop_stop E cfg app_id visited p rest [] Hall Hne)
      as (_ & Hr).
    rewrite Hs, Hr in H. exists p. split; [lia|].
    destruct (page_reviews E cfg app_id p) as [e'|rs]; [|discriminate H].
    injection H as ->. reflexivity.
Qed.

(** Where the error of a failed run comes from: the resolver; one of the
    pages up to the ceiling (its fetch, its XML parse or the conversion
    of a rating text); the missing timestamp column of an empty table;
    or the write of the file.  No other step of the run raises. *)
Theorem main_error_sources (E : env) (cfg : config) (e : exn) :
  snd (main E cfg) = Raise e ->
  extract_app_id (APP_URL cfg) = Raise e
  \/ (exists app_id p,
         extract_app_id (APP_URL cfg) = Ok app_id
         /\ 1 <= p <= MAX_PAGES cfg
         /\ (http_get E (feed_url app_id (COUNTRY cfg) p) = Raise e
             \/ exists xml,
                  http_get E (feed_url app_id (COUNTRY cfg) p) = Ok xml
                  /\ (fromstring E xml = Raise e
                      \/ exists root,
                           fromstring E xml = Ok root
                           /\ parse_root root = Raise e
                           /\ is_int_error e
                           /\ Exists (rating_fails e) (entries_of root))))
  \/ (e = KeyError "published_at"
      /\ exists app_id,
           extract_app_id (APP_URL cfg) = Ok app_id
           /\ snd (page_loop E cfg app_id (range 1 (MAX_PAGES cfg + 1)) [])
              = Ok [])
  \/ (exists app_id acc,
         extract_app_id (APP_URL cfg) = Ok app_id
         /\ snd (page_loop E cfg app_id (range 1 (MAX_PAGES cfg + 1)) [])
            = Ok acc
         /\ acc <> []
         /\ write_excel E (final_frame E acc) (OUTPUT_FILE cfg) = Raise e).
Proof.
  intros H.
  destruct (main_cases E cfg)
    as [(e' & Hid & Hm)
       |(app_id & Hid
         & [(e' & Hrun & Hm)
           |[(Hrun & Hm)
            |[(acc & e' & Hne & Hrun & Hw & Hm)|(acc & _ & _ & _ & Hm)]]])];
    rewrite Hm in H; cbn [snd] in H; try discriminate H; injection H as <-.
  - left. exact Hid.
  - right. left. destruct (page_loop_error_page _ _ _ _ Hrun) as (p & Hp & Hpage).
    exists app_id, p. split; [exact Hid|]. split; [exact Hp|].
    unfold page_reviews in Hpage.
    destruct (http_get E (feed_url app_id (COUNTRY cfg) p)) as [x|xml];
      cbn [rbind] in Hpage; [left; injection Hpage as ->; reflexivity|].
    right. exists xml. split; [reflexivity|]. unfold parse_reviews in Hpage.
    destruct (fromstring E xml) as [x|root]; cbn [rbind] in Hpage;
      [left; injection Hpage as ->; reflexivity|].
    right. exists root. split; [reflexivity|]. split; [exact Hpage|].
    rewrite parse_root_entries in Hpage.
    apply parse_entries_raise_inv in Hpage. split; [|exact Hpage].
    apply Exists_exists in Hpage.
    destruct Hpage as (entry & _ & rtext & _ & Hz).
    apply (int_of_str_raises _ Hz).
  - right. right. left. split; [reflexivity|]. exists app_id.
    rewrite range_from_one. split; assumption.
  - right. right. right. exists app_id, acc. rewrite range_from_one.
    repeat split; assumption.
Qed.

Lemma main_error_sources_witness :
  let E := sample_env feed_two_reviews in
  let e := ValueError "No engine for filetype" in
  extract_app_id (APP_URL config_csv) = Raise e
  \/ (exists app_id p,
         extract_app_id (APP_URL config_csv) = Ok app_id
         /\ 1 <= p <= MAX_PAGES config_csv
         /\ (http_get E (feed_url app_id (COUNTRY config_csv) p) = Raise e
             \/ exists xml,
                  http_get E (feed_url app_id (COUNTRY config_csv) p) = Ok xml
                  /\ (fromstring E xml = Raise e
                      \/ exists root,
                           fromstring E xml = Ok root
                           /\ parse_root root = Raise e
                           /\ is_int_error e
                           /\ Exists (rating_fails e) (entries_of root))))
  \/ (e = KeyError "published_at"
      /\ exists app_id,
           extract_app_id (APP_URL config_csv) = Ok app_id
           /\ snd (page_loop E config_csv app_id
                     (range 1 (MAX_PAGES config_csv + 1)) [])
              = Ok [])
  \/ (exists app_id acc,
         extract_app_id (APP_URL config_csv) = Ok app_id
         /\ snd (page_loop E config_csv app_id
                   (range 1 (MAX_PAGES config_csv + 1)) [])
            = Ok acc
         /\ acc <> []
         /\ write_excel E (final_frame E acc) (OUTPUT_FILE config_csv) = Raise e).
Proof.
  intros E e. apply (@main_error_sources E config_csv e).
  vm_compute. reflexivity.
Defined.

(** ** The written file and the console *)

Lemma summary_written (cfg : config) (s : Pd.sheet) :
  written (OUTPUT_FILE cfg)
    (EWrite (OUTPUT_FILE cfg) s :: map EPrint (summary_lines cfg s)) = [s].
Proof.
  unfold summary_lines. simpl. rewrite String.eqb_refl. reflexivity.
Qed.

Lemma summary_written_elsewhere (cfg : config) (s : Pd.sheet) (path : string) :
  path <> OUTPUT_FILE cfg ->
  written path
    (EWrite (OUTPUT_FILE cfg) s :: map EPrint (summary_lines cfg s)) = [].
Proof.
  intros H. unfold summary_lines. simpl.
  destruct (String.eqb_spec (OUTPUT_FILE cfg) path) as [Heq|_];
    [congruence|reflexivity].
Qed.

(** The file is written exactly when the run ends normally, by one
    write; a run writes to no other path. *)
Theorem main_writes_iff_succeeds (E : env) (cfg : config) :
  (snd (main E cfg) = Ok tt
   <-> written (OUTPUT_FILE cfg) (fst (main E cfg)) <> [])
  /\ List.length (written (OUTPUT_FILE cfg) (fst (main E cfg))) <= 1
  /\ (forall path,
         path <> OUTPUT_FILE cfg -> written path (fst (main E cfg)) = []).
Proof.
  destruct (main_cases E cfg)
    as [(e & _ & ->)
       |(app_id & _
         & [(e & _ & ->)
           |[(_ & ->)
            |[(acc & e & _ & _ & _ & ->)|(acc & _ & _ & _ & ->)]]])];
    cbn [fst snd]; rewrite ?page_loop_writes_nothing.
  - simpl. repeat split; try discriminate; try lia; tauto.
  - repeat split; try discriminate; simpl; try lia; try tauto.
    intros path _. apply page_loop_writes_nothing.
  - repeat split; try discriminate; simpl; try lia; try tauto.
    intros path _. apply page_loop_writes_nothing.
  - repeat split; try discriminate; simpl; try lia; try tauto.
    intros path _. apply page_loop_writes_nothing.
  - rewrite written_app, page_loop_writes_nothing, summary_written.
    repeat split; try discriminate; simpl; try lia.
    intros path Hp.
    rewrite written_app, page_loop_writes_nothing.
    apply summary_written_elsewhere, Hp.
Qed.

Lemma summary_printed (cfg : config) (s : Pd.sheet) :
  printed (EWrite (OUTPUT_FILE cfg) s :: map EPrint (summary_lines cfg s))
  = summary_lines cfg s.
Proof. reflexivity. Qed.

(** What a run prints: one progress line for every page it requests, in
    the order of the requests, and after them the three summary lines
    when, and only when, the file was written; the count of the summary
    is the number of rows of the written sheet. *)
Theorem main_console (E : env) (cfg : config) :
  exists app_id k,
    k <= MAX_PAGES cfg
    /\ requested (fst (main E cfg))
       = map (feed_url app_id (COUNTRY cfg)) (seq 1 k)
    /\ printed (fst (main E cfg))
       = map progress_line (seq 1 k)
         ++ match written (OUTPUT_FILE cfg) (fst (main E cfg)) with
            | [] => []
            | s :: _ => summary_lines cfg s
            end.
Proof.
  destruct (main_cases E cfg)
    as [(e & _ & ->)
       |(app_id & _
         & [(e & _ & ->)
           |[(_ & ->)
            |[(acc & e & _ & _ & _ & ->)|(acc & _ & _ & _ & ->)]]])];
    cbn [fst].
  - exists EmptyString, 0. repeat split. lia.
  - destruct (page_loop_seq_observed E cfg app_id (MAX_PAGES cfg) [])
      as (k & Hk & Hreq & Hpr).
    exists app_id, k. rewrite page_loop_writes_nothing, app_nil_r.
    repeat split; assumption.
  - destruct (page_loop_seq_observed E cfg app_id (MAX_PAGES cfg) [])
      as (k & Hk & Hreq & Hpr).
    exists app_id, k. rewrite page_loop_writes_nothing, app_nil_r.
    repeat split; assumption.
  - destruct (page_loop_seq_observed E cfg app_id (MAX_PAGES cfg) [])
      as (k & Hk & Hreq & Hpr).
    exists app_id, k. rewrite page_loop_writes_nothing, app_nil_r.
    repeat split; assumption.
  - destruct (page_loop_seq_observed E cfg app_id (MAX_PAGES cfg) [])
      as (k & Hk & Hreq & Hpr).
    exists app_id, k.
    rewrite requested_app, printed_app, written_app, page_loop_writes_nothing,
      summary_written, summary_requests_nothing, summary_printed, app_nil_r.
    cbn [app]. rewrite Hreq, Hpr. repeat split. exact Hk.
Qed.

Lemma flat_map_reviews_nonempty (E : env) (cfg : config) (app_id : string)
  (j : nat) :
  1 <= j -> nonempty_page E cfg app_id 1 ->
  flat_map (reviews_of E cfg app_id) (seq 1 j) <> [].
Proof.
  intros Hj (r & rs & H1). destruct j as [|j]; [lia|].
  cbn [seq flat_map]. unfold reviews_of at 1. rewrite H1. discriminate.
Qed.

(** When a run ends normally: the identifier resolves, the pages from 1
    up to some page j within the ceiling give reviews, page j being the
    last page allowed or the page before one without reviews, and the
    write of the table built from these reviews ends normally. *)
Theorem main_succeeds_iff (E : env) (cfg : config) :
  snd (main E cfg) = Ok tt
  <-> exists app_id j,
        extract_app_id (APP_URL cfg) = Ok app_id
        /\ 1 <= j <= MAX_PAGES cfg
        /\ (forall p, 1 <= p <= j -> nonempty_page E cfg app_id p)
        /\ (j = MAX_PAGES cfg \/ page_reviews E cfg app_id (j + 1) = Ok [])
        /\ write_excel E
             (final_frame E (flat_map (reviews_of E cfg app_id) (seq 1 j)))
             (OUTPUT_FILE cfg)
           = Ok tt.
Proof.
  split.
  - intros H.
    destruct (main_cases E cfg)
      as [(e & _ & Hm)
         |(app_id & Hid
           & [(e & _ & Hm)
             |[(_ & Hm)
              |[(acc & e & _ & _ & _ & Hm)|(acc & Hne & Hrun & Hw & _)]]])];
      try (rewrite Hm in H; discriminate H).
    exists app_id.
    destruct (pages_split E cfg app_id (seq 1 (MAX_PAGES cfg)))
      as [Hall|(visited & p & rest & Hs & Hall & Hp)].
    + exists (MAX_PAGES cfg).
      destruct (@page_loop_to_ceiling E cfg app_id _ [] Hall) as (_ & Hr).
      rewrite Hr in Hrun. injection Hrun as <-.
      split; [exact Hid|]. split; [|split; [|split; [left; reflexivity|exact Hw]]].
      * destruct (MAX_PAGES cfg); [contradiction Hne; reflexivity|lia].
      * intros q Hq. rewrite Forall_forall in Hall. apply Hall, in_seq. lia.
    + destruct (seq_split _ _ _ _ _ Hs) as (Hv & Hx & Hlt).
      assert (Hnp : forall r rs, page_reviews E cfg app_id p <> Ok (r :: rs)).
      { intros r rs H'. destruct Hp as [Hp|(e' & Hp)]; congruence. }
      destruct (@page_loop_stop E cfg app_id visited p rest [] Hall Hnp)
        as (_ & Hr).
      rewrite Hs, Hr in Hrun.
      destruct Hp as [Hp|(e' & Hp)]; rewrite Hp in Hrun; [|discriminate Hrun].
      injection Hrun as <-. exists (List.length visited).
      split; [exact Hid|]. split; [|split; [|split]].
      * destruct visited; [contradiction Hne; reflexivity|simpl in *; lia].
      * intros q Hq. rewrite Forall_forall in Hall. apply Hall.
        rewrite Hv. apply in_seq. lia.
      * right. replace (List.length visited + 1) with p by lia. exact Hp.
      * rewrite <- Hv. exact Hw.
  - intros (app_id & j & Hid & Hj & Hall & Hend & Hw).
    assert (H1 : nonempty_page E cfg app_id 1) by (apply Hall; lia).
    assert (Hrun : snd (page_loop E cfg app_id (range 1 (MAX_PAGES cfg + 1)) [])
                   = Ok (flat_map (reviews_of E cfg app_id) (seq 1 j))).
    { rewrite range_from_one.
      destruct (Nat.eq_dec j (MAX_PAGES cfg)) as [->|Hlt].
      - apply (@page_loop_to_ceiling E cfg app_id (seq 1 (MAX_PAGES cfg)) []).
        apply Forall_forall. intros q Hq. apply in_seq in Hq. apply Hall. lia.
      - destruct Hend as [->|Hempty]; [contradiction Hlt; reflexivity|].
        assert (Hj' : 1 <= j + 1 <= MAX_PAGES cfg) by lia.
        rewrite (seq_around Hj'). replace (j + 1 - 1) with j by lia.
        apply (@page_loop_until_empty E cfg app_id (seq 1 j) (j + 1)
                 (seq (S (j + 1)) (MAX_PAGES cfg - (j + 1))) []);
          [|exact Hempty].
        apply Forall_forall. intros q Hq. apply in_seq in Hq. apply Hall. lia. }
    assert (Hne : flat_map (reviews_of E cfg app_id) (seq 1 j) <> [])
      by (apply flat_map_reviews_nonempty; [lia|exact H1]).
    destruct (main_nonempty E cfg Hid Hrun Hne) as (Hres & _).
    rewrite Hres. exact Hw.
Qed.

Lemma main_succeeds_iff_witness :
  snd (main (sample_env feed_two_reviews) script_config) = Ok tt.
Proof.
  apply (proj2 (main_succeeds_iff (sample_env feed_two_reviews) script_config)).
  exists "416048305", 1. split; [reflexivity|]. split; [simpl; lia|].
  split; [|split].
  - intros p Hp. replace p with 1 by lia. eexists. eexists. reflexivity.
  - right. reflexivity.
  - vm_compute. reflexivity.
Defined.

(** Every written sheet has the five column names as its header, and
    each of its rows has five cells: a text, a timestamp or [NaT] (never
    the text it was read from), an integer and two texts. *)
Theorem sheet_rows_well_formed (E : env) (cfg : config) (s : Pd.sheet) :
  In s (written (OUTPUT_FILE cfg) (fst (main E cfg))) ->
  Pd.header s = review_columns
  /\ forall row,
       In row (Pd.body s) ->
       exists u t r ti c,
         row = [Pd.CStr u; t; Pd.CInt r; Pd.CStr ti; Pd.CStr c]
         /\ (t = Pd.CNaT \/ exists ns, t = Pd.CTime ns).
Proof.
  destruct (main_cases E cfg)
    as [(e & _ & ->)
       |(app_id & _
         & [(e & _ & ->)
           |[(_ & ->)
            |[(acc & e & _ & _ & _ & ->)|(acc & _ & _ & _ & ->)]]])];
    cbn [fst]; rewrite ?page_loop_writes_nothing; try contradiction.
  rewrite written_app, page_loop_writes_nothing, summary_written.
  intros [<-|[]]. split; [reflexivity|].
  intros row Hrow. unfold final_sheet in Hrow. cbn [Pd.body] in Hrow.
  apply in_map_iff in Hrow. destruct Hrow as (row0 & <- & Hin).
  apply table_rows_In in Hin. destruct Hin as (r & _ & ->).
  exists (username r), (coerced E acc (published_at r)), (rating r),
    (title r), (content r).
  split; [reflexivity|]. unfold coerced.
  destruct (parse_datetime E (timestamp_texts acc) (published_at r)) as [ns|].
  - right. exists ns. reflexivity.
  - left. reflexivity.
Qed.

Lemma sheet_rows_well_formed_witness :
  let E := sample_env feed_ann_bob_ann in
  let s := final_sheet E [review_ann; review_bob; review_ann] in
  Pd.header s = review_columns
  /\ forall row,
       In row (Pd.body s) ->
       exists u t r ti c,
         row = [Pd.CStr u; t; Pd.CInt r; Pd.CStr ti; Pd.CStr c]
         /\ (t = Pd.CNaT \/ exists ns, t = Pd.CTime ns).
Proof.
  intros E s. apply (@sheet_rows_well_formed E script_config s).
  vm_compute. left. reflexivity.
Defined.

(** ** Row counts *)





Lemma map_collision_not_NoDup (A B : Type) (f : A -> B) (l : list A) (a b : A) :
  In a l -> In b l -> a <> b -> f a = f b -> ~ NoDup (map f l).
Proof.
  induction l as [|x l IH]; intros Ha Hb Hne Hf Hnd; [contradiction|].
  simpl in Hnd. inversion Hnd as [|? ? Hnotin Hnd']; subst.
  destruct Ha as [->|Ha], Hb as [->|Hb].
  - contradiction.
  - apply Hnotin. rewrite Hf. apply in_map, Hb.
  - apply Hnotin. rewrite <- Hf. apply in_map, Ha.
  - exact (IH Ha Hb Hne Hf Hnd').
Qed.

(** Duplicates are removed before the timestamps are coerced: two
    gathered reviews that differ only in timestamp texts which the
    coercion turns into the same cell give two equal rows in the table
    handed to [to_excel], and so in the sheet written when the write ends
    normally. *)
Theorem sheet_may_repeat_rows (E : env) (cfg : config) (app_id : string)
  (acc : list review) (r1 r2 : review) :
  extract_app_id (APP_URL cfg) = Ok app_id ->
  snd (page_loop E cfg app_id (range 1 (MAX_PAGES cfg + 1)) []) = Ok acc ->
  In r1 acc -> In r2 acc ->
  published_at r1 <> published_at r2 ->
  username r1 = username r2 -> rating r1 = rating r2 ->
  title r1 = title r2 -> content r1 = content r2 ->
  coerced E acc (published_at r1) = coerced E acc (published_at r2) ->
  ~ NoDup (Pd.rows (final_frame E acc))
  /\ snd (main E cfg) = write_excel E (final_frame E acc) (OUTPUT_FILE cfg)
  /\ (write_excel E (final_frame E acc) (OUTPUT_FILE cfg) = Ok tt ->
      exists s,
        written (OUTPUT_FILE cfg) (fst (main E cfg)) = [s]
        /\ ~ NoDup (Pd.body s)).
Proof.
  intros Hid Hrun H1 H2 Hts Hu Hr Ht Hc Hco.
  assert (Hne : acc <> []) by (intros ->; contradiction).
  destruct (main_nonempty E cfg Hid Hrun Hne) as (Hres & Hw).
  assert (Hrep : ~ NoDup (Pd.rows (final_frame E acc))).
  { unfold final_frame. cbn [Pd.rows].
    apply (@map_collision_not_NoDup _ _ (coerce_row E acc) _
             (row_cells r1) (row_cells r2)).
    - apply table_rows_In. exists r1. split; [exact H1|reflexivity].
    - apply table_rows_In. exists r2. split; [exact H2|reflexivity].
    - intros H. apply row_cells_inj in H. subst r2. contradiction.
    - unfold coerce_row, row_cells. rewrite Hu, Hr, Ht, Hc, Hco. reflexivity. }
  split; [exact Hrep|]. split; [exact Hres|].
  intros Hok. rewrite Hok in Hw. exists (final_sheet E acc).
  split; [exact Hw|exact Hrep].
Qed.

Lemma sheet_may_repeat_rows_witness :
  let E := sample_env feed_bob_twice in
  exists s,
    written "meitu_gb_reviews.xlsx" (fst (main E script_config)) = [s]
    /\ ~ NoDup (Pd.body s).
Proof.
  intros E.
  apply (@sheet_may_repeat_rows E script_config "416048305"
           [review_bob; review_bob_tomorrow] review_bob review_bob_tomorrow);
    try reflexivity.
  - simpl. tauto.
  - simpl. tauto.
  - discriminate.
Defined.

(** ** Pauses *)

Lemma export_pauses (E : env) (cfg : config) (acc : list review) :
  pauses (fst (export E cfg acc)) = 0.
Proof.
  destruct acc as [|r acc]; [reflexivity|].
  rewrite export_nonempty by discriminate.
  destruct (write_excel E (final_frame E (r :: acc)) (OUTPUT_FILE cfg));
    reflexivity.
Qed.

Lemma main_pauses (E : env) (cfg : config) (app_id : string) :
  extract_app_id (APP_URL cfg) = Ok app_id ->
  pauses (fst (main E cfg))
  = pauses (fst (page_loop E cfg app_id (seq 1 (MAX_PAGES cfg)) [])).
Proof.
  intros Hid. rewrite main_eq, Hid. cbv zeta.
  destruct (snd (page_loop E cfg app_id (seq 1 (MAX_PAGES cfg)) []));
    cbn [fst]; [reflexivity|].
  rewrite pauses_app, export_pauses. lia.
Qed.

(** A pause follows every page that gave reviews and no other: a run
    that stops at page j, empty or failed, pauses j - 1 times, and a run
    that meets the ceiling pauses once for each page, the last one
    included. *)
Theorem pauses_follow_nonempty_pages (E : env) (cfg : config) (app_id : string) :
  extract_app_id (APP_URL cfg) = Ok app_id ->
  (forall j,
      1 <= j <= MAX_PAGES cfg ->
      (forall p, 1 <= p < j -> nonempty_page E cfg app_id p) ->
      (forall r rs, page_reviews E cfg app_id j <> Ok (r :: rs)) ->
      pauses (fst (main E cfg)) = j - 1)
  /\ ((forall p, 1 <= p <= MAX_PAGES cfg -> nonempty_page E cfg app_id p) ->
      pauses (fst (main E cfg)) = MAX_PAGES cfg).
Proof.
  intros Hid. rewrite (main_pauses E cfg Hid). split.
  - intros j Hj Hbefore Hstop. rewrite (seq_around Hj).
    destruct (@page_loop_stop E cfg app_id (seq 1 (j - 1)) j
                (seq (S j) (MAX_PAGES cfg - j)) []
                (@nonempty_pages_below E cfg app_id j Hbefore) Hstop)
      as (Ht & _).
    rewrite Ht, pauses_app, turns_pauses, length_seq.
    change (pauses (turn_events cfg app_id j)) with 0. lia.
  - intros Hall.
    rewrite (@page_loop_trace_ceiling E cfg app_id (seq 1 (MAX_PAGES cfg)) []).
    + rewrite turns_pauses, length_seq. reflexivity.
    + apply Forall_forall. intros q Hq. apply in_seq in Hq. apply Hall. lia.
Qed.

Lemma pauses_follow_nonempty_pages_witness :
  pauses (fst (main (sample_env feed_two_reviews) script_config)) = 2 - 1.
Proof.
  apply (proj1 (@pauses_follow_nonempty_pages
                  (sample_env feed_two_reviews) script_config "416048305"
                  eq_refl) 2).
  - simpl. lia.
  - intros p Hp. replace p with 1 by lia. eexists. eexists. reflexivity.
  - intros r rs H. discriminate H.
Defined.

(** ** Sample runs *)

Lemma requests_never_repeat_witness :
  NoDup (requested (fst (main (sample_env feed_fifty) script_config))).
Proof.
  apply (proj2 (requests_never_repeat (sample_env feed_fifty) script_config)).
Defined.

Lemma main_writes_iff_succeeds_witness :
  let E := sample_env feed_two_reviews in
  written (OUTPUT_FILE script_config) (fst (main E script_config)) <> []
  /\ written "reviews.csv" (fst (main E script_config)) = [].
Proof.
  intros E. split.
  - apply (proj1 (proj1 (main_writes_iff_succeeds E script_config))).
    reflexivity.
  - apply (proj2 (proj2 (main_writes_iff_succeeds E script_config))).
    discriminate.
Defined.

(** ** The loop and the export in a run *)

Lemma page_loop_seq_stop (E : env) (cfg : config) (app_id : string) (n : nat) :
  exists k,
    k <= n
    /\ (1 <= n -> 1 <= k)
    /\ requested (fst (page_loop E cfg app_id (seq 1 n) []))
       = map (feed_url app_id (COUNTRY cfg)) (seq 1 k)
    /\ (forall p, 1 <= p < k -> nonempty_page E cfg app_id p)
    /\ (k < n -> ~ nonempty_page E cfg app_id k).
Proof.
  destruct (pages_split E cfg app_id (seq 1 n))
    as [Hall|(visited & p & rest & Hs & Hall & Hp)].
  - exists n.
    rewrite (@page_loop_trace_ceiling E cfg app_id (seq 1 n) [] Hall).
    rewrite turns_requested. repeat split; try lia.
    intros p Hp. rewrite Forall_forall in Hall. apply Hall, in_seq. lia.
  - destruct (seq_split _ _ _ _ _ Hs) as (Hv & Hx & Hlt).
    assert (Hne : forall r rs, page_reviews E cfg app_id p <> Ok (r :: rs)).
    { intros r rs H. destruct Hp as [Hp|(e & Hp)]; congruence. }
    destruct (@page_loop_stop E cfg app_id visited p rest [] Hall Hne) as (Ht & _).
    exists p. rewrite Hs, Ht, requested_app, turns_requested.
    split; [lia|]. split; [lia|]. split; [|split].
    + replace p with (S (List.length visited)) at 2 by lia.
      rewrite seq_S, map_app, <- Hv. simpl. rewrite Hx. reflexivity.
    + intros q Hq. rewrite Forall_forall in Hall. apply Hall.
      rewrite Hv. apply in_seq. lia.
    + intros _ (r & rs & H). exact (Hne r rs H).
Qed.

Lemma main_accumulated (E : env) (cfg : config) (app_id : string)
  (acc : list review) :
  extract_app_id (APP_URL cfg) = Ok app_id ->
  snd (page_loop E cfg app_id (seq 1 (MAX_PAGES cfg)) []) = Ok acc ->
  accumulated E cfg acc.
Proof.
  intros Hid Hrun.
  exists (fst (page_loop E cfg app_id (seq 1 (MAX_PAGES cfg)) [])). split.
  - intros path. apply page_loop_writes_nothing.
  - rewrite main_eq, Hid. cbv zeta. rewrite Hrun. reflexivity.
Qed.

(** C2.  A run whose identifier does not resolve requests nothing.  In
    every other run the pages requested are the pages 1, 2, ..., k for
    some k not above [MAX_PAGES] (at least 1 when the ceiling is), every
    requested page before the last gave reviews, and a run that stops
    below the ceiling stops on a page that gave none.  The run stops at
    the first page that parses to no review, and hands to the export
    the reviews of the pages before it, in order; with fifty reviews on
    page 1 and none on page 2 it requests pages 1 and 2 and hands over
    the fifty reviews of page 1; when no page up to the ceiling is empty
    it requests the pages 1 to [MAX_PAGES] and no other. *)
Theorem page_loop_consecutive_until_empty (E : env) (cfg : config) :
  (forall e,
      extract_app_id (APP_URL cfg) = Raise e ->
      requested (fst (main E cfg)) = [])
  /\ forall app_id,
       extract_app_id (APP_URL cfg) = Ok app_id ->
       (exists k,
           k <= MAX_PAGES cfg
           /\ (1 <= MAX_PAGES cfg -> 1 <= k)
           /\ requested (fst (main E cfg))
              = map (feed_url app_id (COUNTRY cfg)) (seq 1 k)
           /\ (forall p, 1 <= p < k -> nonempty_page E cfg app_id p)
           /\ (k < MAX_PAGES cfg -> ~ nonempty_page E cfg app_id k))
       /\ (forall j,
              1 <= j <= MAX_PAGES cfg ->
              (forall p, 1 <= p < j -> nonempty_page E cfg app_id p) ->
              page_reviews E cfg app_id j = Ok [] ->
              requested (fst (main E cfg))
              = map (feed_url app_id (COUNTRY cfg)) (seq 1 j)
              /\ accumulated E cfg
                   (flat_map (reviews_of E cfg app_id) (seq 1 (j - 1))))
       /\ (forall rs1,
              2 <= MAX_PAGES cfg ->
              List.length rs1 = 50 ->
              page_reviews E cfg app_id 1 = Ok rs1 ->
              page_reviews E cfg app_id 2 = Ok [] ->
              requested (fst (main E cfg))
              = [feed_url app_id (COUNTRY cfg) 1; feed_url app_id (COUNTRY cfg) 2]
              /\ accumulated E cfg rs1)
       /\ ((forall p, 1 <= p <= MAX_PAGES cfg -> nonempty_page E cfg app_id p) ->
           requested (fst (main E cfg))
           = map (feed_url app_id (COUNTRY cfg)) (seq 1 (MAX_PAGES cfg))
           /\ accumulated E cfg
                (flat_map (reviews_of E cfg app_id) (seq 1 (MAX_PAGES cfg)))).
Proof.
  split.
  - intros e Hid. rewrite main_eq, Hid. reflexivity.
  - intros app_id Hid.
    assert (Hstop : forall j,
               1 <= j <= MAX_PAGES cfg ->
               (forall p, 1 <= p < j -> nonempty_page E cfg app_id p) ->
               page_reviews E cfg app_id j = Ok [] ->
               requested (fst (main E cfg))
               = map (feed_url app_id (COUNTRY cfg)) (seq 1 j)
               /\ accumulated E cfg
                    (flat_map (reviews_of E cfg app_id) (seq 1 (j - 1)))).
    { intros j Hj Hbefore Hempty.
      destruct (@page_loop_until_empty E cfg app_id (seq 1 (j - 1)) j
                  (seq (S j) (MAX_PAGES cfg - j)) []
                  (@nonempty_pages_below E cfg app_id j Hbefore) Hempty)
        as (Hreq & Hres).
      rewrite <- (seq_around Hj) in Hreq, Hres.
      rewrite <- (seq_last_page (proj1 Hj)) in Hreq. split.
      - rewrite (page_loop_requests_only E cfg Hid). exact Hreq.
      - apply (main_accumulated E cfg Hid Hres). }
    split; [|split; [exact Hstop|split]].
    + destruct (page_loop_seq_stop E cfg app_id (MAX_PAGES cfg))
        as (k & Hk & Hk1 & Hreq & Hbefore & Hlast).
      exists k. rewrite (page_loop_requests_only E cfg Hid).
      repeat split; assumption.
    + intros rs1 Hmax Hlen H1 H2.
      destruct rs1 as [|r rs]; [discriminate Hlen|].
      destruct (Hstop 2) as (Hreq & Hacc); [lia| |exact H2|].
      * intros p Hp. replace p with 1 by lia. exists r, rs. exact H1.
      * split; [exact Hreq|].
        cbn [Nat.sub seq flat_map] in Hacc. unfold reviews_of in Hacc.
        rewrite H1, app_nil_r in Hacc. exact Hacc.
    + intros Hall.
      destruct (@page_loop_to_ceiling E cfg app_id (seq 1 (MAX_PAGES cfg)) [])
        as (Hreq & Hres).
      { apply Forall_forall. intros p Hp. apply in_seq in Hp. apply Hall. lia. }
      split.
      * rewrite (page_loop_requests_only E cfg Hid). exact Hreq.
      * apply (main_accumulated E cfg Hid Hres).
Qed.

Lemma page_loop_consecutive_until_empty_witness :
  let E := sample_env feed_fifty in
  requested (fst (main E script_config))
  = [feed_url "416048305" "gb" 1; feed_url "416048305" "gb" 2]
  /\ accumulated E script_config (reviews_of E script_config "416048305" 1).
Proof.
  intros E.
  destruct (proj2 (page_loop_consecutive_until_empty E script_config)
              "416048305" eq_refl) as (_ & _ & Hfifty & _).
  apply (Hfifty (reviews_of E script_config "416048305" 1)).
  - simpl. lia.
  - vm_compute. reflexivity.
  - vm_compute. reflexivity.
  - vm_compute. reflexivity.
Defined.

(** The run of the scenario writes the fifty reviews of page 1. *)
Lemma main_fifty_rows :
  let E := sample_env feed_fifty in
  snd (main E script_config) = Ok tt
  /\ exists s,
       written "meitu_gb_reviews.xlsx" (fst (main E script_config)) = [s]
       /\ List.length (Pd.body s) = 50.
Proof.
  intros E. split; [vm_compute; reflexivity|].
  eexists. split; vm_compute; reflexivity.
Qed.




